(** * terraform-provider-kubepatch: the patch resource and the provider configuration

    A shallow embedding of [internal/provider/patch_resource.go] and of the
    provider code ([KubernetesPatchProvider.Configure],
    [initializeConfiguration]).  The Kubernetes client library, the
    Terraform plugin framework and the host (environment, home directory)
    are outside the repository: what the code needs from them is collected
    in the interfaces [Kubernetes], [Framework], [Environment] and
    [ClientCmd], and every definition is stated over an arbitrary
    implementation of them.  Calls to [tflog] and [log] only write log
    lines and are left out. *)

From Stdlib Require Import String Ascii List Bool Arith Lia.
From Stdlib Require Import Strings.Byte.
Import ListNotations.
Open Scope string_scope.
Open Scope list_scope.

Set Implicit Arguments.

(* ------------------------------------------------------------------ *)
(** ** Framework values: [types.String], [types.Bool] *)

(** [types.String]: a string attribute is null, unknown or known. *)
Inductive TypesString : Type :=
| StringNull
| StringUnknown
| StringValue (s : string).

(** [ValueString] yields the empty string for null and unknown values. *)
Definition ValueString (v : TypesString) : string :=
  match v with
  | StringValue s => s
  | _ => ""
  end.

(** [ValueStringPointer] is [nil] only for a null value. *)
Definition ValueStringPointer (v : TypesString) : option string :=
  match v with
  | StringNull => None
  | StringUnknown => Some ""
  | StringValue s => Some s
  end.

Definition IsNull (v : TypesString) : bool :=
  match v with
  | StringNull => true
  | _ => false
  end.

Inductive TypesBool : Type :=
| BoolNull
| BoolUnknown
| BoolValue (b : bool).

Definition ValueBoolPointer (v : TypesBool) : option bool :=
  match v with
  | BoolNull => None
  | BoolUnknown => Some false
  | BoolValue b => Some b
  end.

(** Go's [error]: only its message is ever observed ([%s], [err.Error()]);
    a nil error is [None]. *)
Definition error := string.

(* ------------------------------------------------------------------ *)
(** ** Framework diagnostics *)

Module diag.

Inductive Severity : Type := SeverityError | SeverityWarning.

Record Diagnostic : Type := mkDiagnostic {
  severity : Severity;
  Summary : string;
  Detail : string;
  Path : option string
}.

Definition Diagnostics := list Diagnostic.

Definition Severity_eqb (a b : Severity) : bool :=
  match a, b with
  | SeverityError, SeverityError => true
  | SeverityWarning, SeverityWarning => true
  | _, _ => false
  end.

Definition Path_eqb (a b : option string) : bool :=
  match a, b with
  | None, None => true
  | Some x, Some y => String.eqb x y
  | _, _ => false
  end.

(** [Equal]: same kind of diagnostic, same summary, detail and path. *)
Definition Equal (a b : Diagnostic) : bool :=
  Severity_eqb (severity a) (severity b)
  && String.eqb (Summary a) (Summary b)
  && String.eqb (Detail a) (Detail b)
  && Path_eqb (Path a) (Path b).

Definition Contains (diags : Diagnostics) (d : Diagnostic) : bool :=
  existsb (fun x => Equal x d) diags.

(** [Append] skips a diagnostic the collection already contains. *)
Definition Append (diags : Diagnostics) (new : Diagnostics) : Diagnostics :=
  fold_left (fun acc d => if Contains acc d then acc else acc ++ [d]) new diags.

Definition NewErrorDiagnostic (summary detail : string) : Diagnostic :=
  mkDiagnostic SeverityError summary detail None.

Definition AddError (diags : Diagnostics) (summary detail : string) : Diagnostics :=
  Append diags [NewErrorDiagnostic summary detail].

Definition HasError (diags : Diagnostics) : bool :=
  existsb (fun d => Severity_eqb (severity d) SeverityError) diags.

End diag.

(* ------------------------------------------------------------------ *)
(** ** The Kubernetes client as the code uses it *)

(** [k8stypes.PatchType] is a string type; the variable [pt] of [patch]
    keeps its zero value, the empty string, when no case matches. *)
Definition PatchType := string.
Definition JSONPatchType : PatchType := "application/json-patch+json".
Definition MergePatchType : PatchType := "application/merge-patch+json".
Definition StrategicMergePatchType : PatchType := "application/strategic-merge-patch+json".

(** [metav1.PatchOptions]; the code always passes the zero value. *)
Record PatchOptions : Type := mkPatchOptions {
  DryRun : list string;
  Force : option bool;
  FieldManager : string;
  FieldValidation : string
}.

Definition PatchOptions_zero : PatchOptions := mkPatchOptions [] None "" "".

(** The typed clients reached from a clientset.  A namespaced client
    carries the namespace it was built with, a cluster-scoped one has no
    namespace argument. *)
Inductive CoreV1Interface : Type :=
| ComponentStatuses
| ConfigMaps (namespace : string)
| Endpoints (namespace : string)
| Events (namespace : string)
| LimitRanges (namespace : string)
| Namespaces
| Nodes
| PersistentVolumeClaims (namespace : string)
| PersistentVolumes
| Pods (namespace : string)
| PodTemplates (namespace : string)
| ReplicationControllers (namespace : string)
| ResourceQuotas (namespace : string)
| Secrets (namespace : string)
| ServiceAccounts (namespace : string)
| Services (namespace : string).

Inductive AppsV1Interface : Type :=
| ControllerRevisions (namespace : string)
| DaemonSets (namespace : string)
| Deployments (namespace : string)
| ReplicaSets (namespace : string)
| StatefulSets (namespace : string).

Inductive BatchV1Interface : Type :=
| CronJobs (namespace : string)
| Jobs (namespace : string).

Inductive TypedClient : Type :=
| CoreV1 (i : CoreV1Interface)
| AppsV1 (i : AppsV1Interface)
| BatchV1 (i : BatchV1Interface).

(** One [Patch] request: the typed client it is sent through and the
    arguments of the call. *)
Record PatchCall : Type := mkPatchCall {
  call_client : TypedClient;
  call_name : string;
  call_pt : PatchType;
  call_data : list byte;
  call_opts : PatchOptions
}.

(** The REST resource a typed client addresses (the string each generated
    client passes to [Resource(...)]). *)
Definition resource_of (c : TypedClient) : string :=
  match c with
  | CoreV1 ComponentStatuses => "componentstatuses"
  | CoreV1 (ConfigMaps _) => "configmaps"
  | CoreV1 (Endpoints _) => "endpoints"
  | CoreV1 (Events _) => "events"
  | CoreV1 (LimitRanges _) => "limitranges"
  | CoreV1 Namespaces => "namespaces"
  | CoreV1 Nodes => "nodes"
  | CoreV1 (PersistentVolumeClaims _) => "persistentvolumeclaims"
  | CoreV1 PersistentVolumes => "persistentvolumes"
  | CoreV1 (Pods _) => "pods"
  | CoreV1 (PodTemplates _) => "podtemplates"
  | CoreV1 (ReplicationControllers _) => "replicationcontrollers"
  | CoreV1 (ResourceQuotas _) => "resourcequotas"
  | CoreV1 (Secrets _) => "secrets"
  | CoreV1 (ServiceAccounts _) => "serviceaccounts"
  | CoreV1 (Services _) => "services"
  | AppsV1 (ControllerRevisions _) => "controllerrevisions"
  | AppsV1 (DaemonSets _) => "daemonsets"
  | AppsV1 (Deployments _) => "deployments"
  | AppsV1 (ReplicaSets _) => "replicasets"
  | AppsV1 (StatefulSets _) => "statefulsets"
  | BatchV1 (CronJobs _) => "cronjobs"
  | BatchV1 (Jobs _) => "jobs"
  end.

(** The namespace a typed client was built with, if it takes one. *)
Definition namespace_of (c : TypedClient) : option string :=
  match c with
  | CoreV1 (ConfigMaps n) | CoreV1 (Endpoints n) | CoreV1 (Events n)
  | CoreV1 (LimitRanges n) | CoreV1 (PersistentVolumeClaims n)
  | CoreV1 (Pods n) | CoreV1 (PodTemplates n)
  | CoreV1 (ReplicationControllers n) | CoreV1 (ResourceQuotas n)
  | CoreV1 (Secrets n) | CoreV1 (ServiceAccounts n) | CoreV1 (Services n) => Some n
  | AppsV1 (ControllerRevisions n) | AppsV1 (DaemonSets n)
  | AppsV1 (Deployments n) | AppsV1 (ReplicaSets n)
  | AppsV1 (StatefulSets n) => Some n
  | BatchV1 (CronJobs n) | BatchV1 (Jobs n) => Some n
  | CoreV1 ComponentStatuses | CoreV1 Namespaces | CoreV1 Nodes
  | CoreV1 PersistentVolumes => None
  end.

(** [rest.Config], the fields the provider code can set. *)
Record ExecConfig : Type := mkExecConfig {
  exec_APIVersion : string;
  exec_Command : string;
  exec_Args : list string;
  exec_Env : list (string * string);
  exec_InteractiveMode : string
}.

Record rest_Config : Type := mkRestConfig {
  cfg_Host : string;
  cfg_Username : string;
  cfg_Password : string;
  cfg_BearerToken : string;
  cfg_Insecure : bool;
  cfg_ServerName : string;
  cfg_CertData : list byte;
  cfg_KeyData : list byte;
  cfg_CAData : list byte;
  cfg_ExecProvider : option ExecConfig;
  cfg_ProxyURL : string
}.

Definition rest_Config_zero : rest_Config :=
  mkRestConfig "" "" "" "" false "" [] [] [] None "".

(** What the code needs from client-go: building a clientset from a
    [rest.Config], and the API server's answer to a patch request sent
    through a clientset (an error or none, and the cluster afterwards). *)
Class Kubernetes : Type := {
  Clientset : Type;
  Cluster : Type;
  NewForConfig : rest_Config -> Clientset + error;
  serve_Patch : Clientset -> PatchCall -> Cluster -> option error * Cluster
}.

(* ------------------------------------------------------------------ *)
(** ** Effects: the cluster, a log of client-library calls, and panics *)

Section Effects.
Context {K : Kubernetes}.

Inductive Event : Type :=
| EvNewForConfig (cfg : rest_Config)
| EvPatch (cs : Clientset) (call : PatchCall).

Record World : Type := mkWorld {
  cluster : Cluster;
  trace : list Event
}.

(** A computation runs in a world and either panics ([None]) or returns
    a value and the world it leaves. *)
Definition M (A : Type) : Type := World -> option (A * World).

Definition ret {A} (a : A) : M A := fun w => Some (a, w).

Definition bind {A B} (m : M A) (k : A -> M B) : M B :=
  fun w => match m w with
           | Some (a, w') => k a w'
           | None => None
           end.

Definition panic {A} : M A := fun _ => None.

(** [client.<Group>().<Kind>(ns).Patch(ctx, name, pt, data, opts)]:
    dereferencing a nil clientset panics; otherwise the request is served
    and logged. *)
Definition Patch (client : option Clientset) (c : TypedClient)
           (name : string) (pt : PatchType) (data : list byte)
           (opts : PatchOptions) : M (option error) :=
  match client with
  | None => panic
  | Some cs =>
      fun w =>
        let call := mkPatchCall c name pt data opts in
        let (err, cl') := serve_Patch cs call (cluster w) in
        Some (err, mkWorld cl' (trace w ++ [EvPatch cs call]))
  end.

(** [kubernetes.NewForConfig(cfg)], logged. *)
Definition callNewForConfig (cfg : rest_Config) : M (Clientset + error) :=
  fun w => Some (NewForConfig cfg,
                 mkWorld (cluster w) (trace w ++ [EvNewForConfig cfg])).

End Effects.

Declare Scope m_scope.
Delimit Scope m_scope with m.
Notation "x <- m ;; k" := (bind m (fun x => k))
  (at level 61, m at next level, right associativity) : m_scope.
Open Scope m_scope.

(* ------------------------------------------------------------------ *)
(** ** The patch resource *)

(** [PatchResourceModel] *)
Record PatchResourceModel : Type := mkPatchResourceModel {
  Namespace : TypesString;
  Resource : TypesString;
  Name : TypesString;
  Type_ : TypesString;
  Data : TypesString;
  Id : TypesString
}.

Definition set_Id (v : TypesString) (d : PatchResourceModel) : PatchResourceModel :=
  mkPatchResourceModel (Namespace d) (Resource d) (Name d) (Type_ d) (Data d) v.

Definition set_Namespace (v : TypesString) (d : PatchResourceModel) : PatchResourceModel :=
  mkPatchResourceModel v (Resource d) (Name d) (Type_ d) (Data d) (Id d).

(** The values of the [OneOf] validator of the [resource] attribute, in
    the order of the schema. *)
Definition resource_OneOf : list string :=
  [ "bindings"; "componentstatuses"; "configmaps"; "endpoints"; "events";
    "limitranges"; "namespaces"; "nodes"; "persistentvolumeclaims";
    "persistentvolumes"; "pods"; "podtemplates"; "replicationcontrollers";
    "resourcequotas"; "secrets"; "serviceaccounts"; "services";
    "controllerrevisions"; "daemonsets"; "deployments"; "replicasets";
    "statefulsets"; "cronjobs"; "jobs" ].

(** The values of the [OneOf] validator of the [type] attribute. *)
Definition type_OneOf : list string := [ "json"; "merge"; "strategic" ].

Section PatchResource.
Context {K : Kubernetes}.

(** [PatchResource]: the receiver holds the client pointer, nil until
    [Configure] stores one. *)
Record PatchResource : Type := mkPatchResource {
  client : option Clientset
}.

Definition NewPatchResource : PatchResource := mkPatchResource None.

(** The first [switch] of [patch]. *)
Definition patch_pt (data : PatchResourceModel) : PatchType :=
  let t := ValueString (Type_ data) in
  if t =? "json" then JSONPatchType
  else if t =? "merge" then MergePatchType
  else if t =? "strategic" then StrategicMergePatchType
  else "".

(** [PatchResource.patch] *)
Definition patch (r : PatchResource) (data : PatchResourceModel) : M (option error) :=
  let pt := patch_pt data in
  let namespace := ValueString (Namespace data) in
  let name := ValueString (Name data) in
  let body := list_byte_of_string (ValueString (Data data)) in
  let res := ValueString (Resource data) in
  if res =? "componentstatuses" then
    Patch (client r) (CoreV1 ComponentStatuses) name pt body PatchOptions_zero
  else if res =? "configmaps" then
    Patch (client r) (CoreV1 (ConfigMaps namespace)) name pt body PatchOptions_zero
  else if res =? "endpoints" then
    Patch (client r) (CoreV1 (Endpoints namespace)) name pt body PatchOptions_zero
  else if res =? "events" then
    Patch (client r) (CoreV1 (Events namespace)) name pt body PatchOptions_zero
  else if res =? "limitranges" then
    Patch (client r) (CoreV1 (LimitRanges namespace)) name pt body PatchOptions_zero
  else if res =? "namespaces" then
    Patch (client r) (CoreV1 Namespaces) name pt body PatchOptions_zero
  else if res =? "nodes" then
    Patch (client r) (CoreV1 Nodes) name pt body PatchOptions_zero
  else if res =? "persistentvolumeclaims" then
    Patch (client r) (CoreV1 (PersistentVolumeClaims namespace)) name pt body PatchOptions_zero
  else if res =? "persistentvolumes" then
    Patch (client r) (CoreV1 PersistentVolumes) name pt body PatchOptions_zero
  else if res =? "pods" then
    Patch (client r) (CoreV1 (Pods namespace)) name pt body PatchOptions_zero
  else if res =? "podtemplates" then
    Patch (client r) (CoreV1 (PodTemplates namespace)) name pt body PatchOptions_zero
  else if res =? "replicationcontrollers" then
    Patch (client r) (CoreV1 (ReplicationControllers namespace)) name pt body PatchOptions_zero
  else if res =? "resourcequotas" then
    Patch (client r) (CoreV1 (ResourceQuotas namespace)) name pt body PatchOptions_zero
  else if res =? "secrets" then
    Patch (client r) (CoreV1 (Secrets namespace)) name pt body PatchOptions_zero
  else if res =? "serviceaccounts" then
    Patch (client r) (CoreV1 (ServiceAccounts namespace)) name pt body PatchOptions_zero
  else if res =? "services" then
    Patch (client r) (CoreV1 (Services namespace)) name pt body PatchOptions_zero
  else if res =? "controllerrevisions" then
    Patch (client r) (AppsV1 (ControllerRevisions namespace)) name pt body PatchOptions_zero
  else if res =? "daemonsets" then
    Patch (client r) (AppsV1 (DaemonSets namespace)) name pt body PatchOptions_zero
  else if res =? "deployments" then
    Patch (client r) (AppsV1 (Deployments namespace)) name pt body PatchOptions_zero
  else if res =? "replicasets" then
    Patch (client r) (AppsV1 (ReplicaSets namespace)) name pt body PatchOptions_zero
  else if res =? "statefulsets" then
    Patch (client r) (AppsV1 (StatefulSets namespace)) name pt body PatchOptions_zero
  else if res =? "cronjobs" then
    Patch (client r) (BatchV1 (CronJobs namespace)) name pt body PatchOptions_zero
  else if res =? "jobs" then
    Patch (client r) (BatchV1 (Jobs namespace)) name pt body PatchOptions_zero
  else
    ret None.

End PatchResource.

(* ------------------------------------------------------------------ *)
(** ** The provider data model *)

(** One [exec] block.  [Env] is a Go map; the list gives its entries in the
    order the [range] loop visits them. *)
Record ExecModel : Type := mkExecModel {
  APIVersion : TypesString;
  Command : TypesString;
  Env : list (string * TypesString);
  Args : list TypesString
}.

Record ExperimentsModel : Type := mkExperimentsModel {
  ManifestResource : TypesBool
}.

(** [KubernetesPatchProviderModel] *)
Record KubernetesPatchProviderModel : Type := mkProviderModel {
  Host : TypesString;
  Username : TypesString;
  Password : TypesString;
  Insecure : TypesBool;
  TLSServerName : TypesString;
  ClientCertificate : TypesString;
  ClientKey : TypesString;
  ClusterCACertificate : TypesString;
  ConfigPaths : list TypesString;
  ConfigPath : TypesString;
  ConfigContext : TypesString;
  ConfigContextAuthInfo : TypesString;
  ConfigContextCluster : TypesString;
  Token : TypesString;
  ProxyURL : TypesString;
  IgnoreAnnotations : list TypesString;
  IgnoreLabels : list TypesString;
  Exec : list ExecModel;
  Experiments : list ExperimentsModel
}.

(* ------------------------------------------------------------------ *)
(** ** What the code needs from the plugin framework and from the host *)

(** Reading a plan, a state or a provider configuration into a model gives
    diagnostics and the model; writing a model into a state gives
    diagnostics and the state afterwards.  [quote] is Go's [%q]. *)
Class Framework : Type := {
  Plan : Type;
  State : Type;
  Config : Type;
  Plan_Get : Plan -> diag.Diagnostics * PatchResourceModel;
  State_Get : State -> diag.Diagnostics * PatchResourceModel;
  State_Set : PatchResourceModel -> State -> diag.Diagnostics * State;
  Config_Get : Config -> diag.Diagnostics * KubernetesPatchProviderModel;
  quote : string -> string
}.

(** The [String] method of [types.String]: a rendering for people, the
    value in quotes when it is known. *)
Definition String_ {F : Framework} (v : TypesString) : string :=
  match v with
  | StringUnknown => "<unknown>"
  | StringNull => "<null>"
  | StringValue s => quote s
  end.

(** The process environment, the file-system helpers and the kubeconfig
    loader of client-go. *)
Class Environment : Type := {
  Getenv : string -> string;
  SplitList : string -> list string;
  homedir_Expand : string -> string + error;
  DefaultServerURL : string -> bool -> string + error
}.

(* ------------------------------------------------------------------ *)
(** ** Create, Read, Update, Delete, Configure of the patch resource *)

Section PatchResourceOps.
Context {K : Kubernetes} {F : Framework}.

(** A value of Go's [any] as [Configure] can tell them apart: the nil
    interface, a [*kubernetes.Clientset] (itself possibly a nil pointer),
    or a value of another type, given by its [%T] rendering. *)
Inductive any : Type :=
| any_nil
| any_Clientset (p : option Clientset)
| any_other (typeName : string).

Record ConfigureRequest : Type := mkConfigureRequest {
  ProviderData : any
}.

Record ConfigureResponse : Type := mkConfigureResponse {
  cfgresp_Diagnostics : diag.Diagnostics
}.

(** The response of Create, Read, Update and Delete: the state the
    framework will keep and the diagnostics. *)
Record Response : Type := mkResponse {
  resp_State : State;
  resp_Diagnostics : diag.Diagnostics
}.

Record CreateRequest : Type := mkCreateRequest { create_Plan : Plan }.
Record UpdateRequest : Type := mkUpdateRequest { update_Plan : Plan; update_State : State }.
Record ReadRequest : Type := mkReadRequest { read_State : State }.
Record DeleteRequest : Type := mkDeleteRequest { delete_State : State }.

(** [PatchResource.Configure] *)
Definition PatchResource_Configure (r : PatchResource) (req : ConfigureRequest)
           (resp : ConfigureResponse) : PatchResource * ConfigureResponse :=
  match ProviderData req with
  | any_nil => (r, resp)
  | any_Clientset c => (mkPatchResource c, resp)
  | any_other typeName =>
      (r, mkConfigureResponse
            (diag.AddError (cfgresp_Diagnostics resp)
               "Unexpected Resource Configure Type"
               ("Expected *http.Client, got: " ++ typeName
                ++ ". Please report this issue to the provider developers.")))
  end.

(** [PatchResource.Create] *)
Definition Create (r : PatchResource) (req : CreateRequest) (resp : Response)
  : M Response :=
  let (ds, data) := Plan_Get (create_Plan req) in
  let resp := mkResponse (resp_State resp) (diag.Append (resp_Diagnostics resp) ds) in
  if diag.HasError (resp_Diagnostics resp) then ret resp
  else
    let data := set_Id (StringValue "example-id") data in
    err <- patch r data ;;
    match err with
    | Some e =>
        ret (mkResponse (resp_State resp)
               (diag.AddError (resp_Diagnostics resp) "Client Error"
                  ("Unable to patch, got error: " ++ e)))
    | None =>
        let (ds', st') := State_Set data (resp_State resp) in
        ret (mkResponse st' (diag.Append (resp_Diagnostics resp) ds'))
    end.

(** [PatchResource.Read] *)
Definition Read (r : PatchResource) (req : ReadRequest) (resp : Response)
  : M Response :=
  let (ds, data) := State_Get (read_State req) in
  let resp := mkResponse (resp_State resp) (diag.Append (resp_Diagnostics resp) ds) in
  if diag.HasError (resp_Diagnostics resp) then ret resp
  else
    let (ds', st') := State_Set data (resp_State resp) in
    ret (mkResponse st' (diag.Append (resp_Diagnostics resp) ds')).

(** [PatchResource.Update] *)
Definition Update (r : PatchResource) (req : UpdateRequest) (resp : Response)
  : M Response :=
  let (ds, data) := Plan_Get (update_Plan req) in
  let resp := mkResponse (resp_State resp) (diag.Append (resp_Diagnostics resp) ds) in
  if diag.HasError (resp_Diagnostics resp) then ret resp
  else
    err <- patch r data ;;
    match err with
    | Some e =>
        ret (mkResponse (resp_State resp)
               (diag.AddError (resp_Diagnostics resp) "Client Error"
                  ("Unable to patch, got error: " ++ e)))
    | None =>
        let (ds', st') := State_Set data (resp_State resp) in
        ret (mkResponse st' (diag.Append (resp_Diagnostics resp) ds'))
    end.

(** [PatchResource.Delete] *)
Definition Delete (r : PatchResource) (req : DeleteRequest) (resp : Response)
  : M Response :=
  let (ds, data) := State_Get (delete_State req) in
  let resp := mkResponse (resp_State resp) (diag.Append (resp_Diagnostics resp) ds) in
  if diag.HasError (resp_Diagnostics resp) then ret resp
  else ret resp.

(* -------------------------------------------------------------- *)
(** ** The provider's Configure *)

Record ProviderConfigureRequest : Type := mkProviderConfigureRequest {
  pc_Config : Config
}.

Record ProviderConfigureResponse : Type := mkProviderConfigureResponse {
  pc_Diagnostics : diag.Diagnostics;
  DataSourceData : any;
  ResourceData : any
}.

Definition set_cfg_Host (h : string) (c : rest_Config) : rest_Config :=
  mkRestConfig h (cfg_Username c) (cfg_Password c) (cfg_BearerToken c)
    (cfg_Insecure c) (cfg_ServerName c) (cfg_CertData c) (cfg_KeyData c)
    (cfg_CAData c) (cfg_ExecProvider c) (cfg_ProxyURL c).

(** The [rest.Config] that [Configure] builds from the provider model.
    The statement [cfg.CAData] in the branch on [ClusterCACertificate]
    assigns nothing. *)
Definition Configure_cfg (data : KubernetesPatchProviderModel) : rest_Config :=
  let cfg := rest_Config_zero in
  let cfg := if negb (IsNull (Host data)) then set_cfg_Host (String_ (Host data)) cfg
             else cfg in
  let cfg := if negb (IsNull (ClusterCACertificate data)) then cfg else cfg in
  cfg.

(** [KubernetesPatchProvider.Configure] *)
Definition KubernetesPatchProvider_Configure (req : ProviderConfigureRequest)
           (resp : ProviderConfigureResponse) : M ProviderConfigureResponse :=
  let (ds, data) := Config_Get (pc_Config req) in
  let resp := mkProviderConfigureResponse (diag.Append (pc_Diagnostics resp) ds)
                (DataSourceData resp) (ResourceData resp) in
  if diag.HasError (pc_Diagnostics resp) then ret resp
  else
    let cfg := Configure_cfg data in
    res <- callNewForConfig cfg ;;
    match res with
    | inr err =>
        ret (mkProviderConfigureResponse
               (diag.AddError (pc_Diagnostics resp) "could not get clientset" err)
               (DataSourceData resp) (ResourceData resp))
    | inl clientset =>
        ret (mkProviderConfigureResponse (pc_Diagnostics resp)
               (any_other "*http.Client") (any_Clientset (Some clientset)))
    end.

End PatchResourceOps.

(* ------------------------------------------------------------------ *)
(** ** initializeConfiguration *)

(** Diagnostics of the older plugin SDK, which [initializeConfiguration]
    returns. *)
Module sdkdiag.

Record Diagnostic : Type := mkDiagnostic {
  severity : diag.Severity;
  Summary : string;
  Detail : string;
  AttributePath : list string
}.

Definition Diagnostics := list Diagnostic.

Definition FromErr (err : error) : Diagnostics :=
  [ mkDiagnostic diag.SeverityError err "" [] ].

End sdkdiag.

(** [clientcmd.ClientConfigLoadingRules] *)
Record ClientConfigLoadingRules : Type := mkLoadingRules {
  ExplicitPath : string;
  Precedence : list string
}.

(** [clientcmd.ConfigOverrides], one field per path the code assigns. *)
Record ConfigOverrides : Type := mkOverrides {
  CurrentContext : string;
  Context_AuthInfo : string;
  Context_Cluster : string;
  ClusterInfo_InsecureSkipTLSVerify : bool;
  ClusterInfo_TLSServerName : string;
  ClusterInfo_CertificateAuthorityData : list byte;
  ClusterInfo_Server : string;
  AuthInfo_ClientCertificateData : list byte;
  AuthInfo_ClientKeyData : list byte;
  AuthInfo_Username : string;
  AuthInfo_Password : string;
  AuthInfo_Token : string;
  AuthInfo_Exec : option ExecConfig;
  ClusterDefaults_ProxyURL : string
}.

Definition ConfigOverrides_zero : ConfigOverrides :=
  mkOverrides "" "" "" false "" [] "" [] [] "" "" "" None "".

Definition ClientConfigLoadingRules_zero : ClientConfigLoadingRules :=
  mkLoadingRules "" [].

(** [NewNonInteractiveDeferredLoadingClientConfig(loader, overrides).ClientConfig()] *)
Class ClientCmd : Type := {
  ClientConfig : ClientConfigLoadingRules -> ConfigOverrides -> rest_Config + error
}.

Section Overrides.

Definition set_CurrentContext v (o : ConfigOverrides) :=
  mkOverrides v (Context_AuthInfo o) (Context_Cluster o)
    (ClusterInfo_InsecureSkipTLSVerify o) (ClusterInfo_TLSServerName o)
    (ClusterInfo_CertificateAuthorityData o) (ClusterInfo_Server o)
    (AuthInfo_ClientCertificateData o) (AuthInfo_ClientKeyData o)
    (AuthInfo_Username o) (AuthInfo_Password o) (AuthInfo_Token o)
    (AuthInfo_Exec o) (ClusterDefaults_ProxyURL o).

(** [overrides.Context = clientcmdapi.Context{...}]: both fields at once. *)
Definition set_Context authInfo cl (o : ConfigOverrides) :=
  mkOverrides (CurrentContext o) authInfo cl
    (ClusterInfo_InsecureSkipTLSVerify o) (ClusterInfo_TLSServerName o)
    (ClusterInfo_CertificateAuthorityData o) (ClusterInfo_Server o)
    (AuthInfo_ClientCertificateData o) (AuthInfo_ClientKeyData o)
    (AuthInfo_Username o) (AuthInfo_Password o) (AuthInfo_Token o)
    (AuthInfo_Exec o) (ClusterDefaults_ProxyURL o).

Definition set_InsecureSkipTLSVerify v (o : ConfigOverrides) :=
  mkOverrides (CurrentContext o) (Context_AuthInfo o) (Context_Cluster o)
    v (ClusterInfo_TLSServerName o)
    (ClusterInfo_CertificateAuthorityData o) (ClusterInfo_Server o)
    (AuthInfo_ClientCertificateData o) (AuthInfo_ClientKeyData o)
    (AuthInfo_Username o) (AuthInfo_Password o) (AuthInfo_Token o)
    (AuthInfo_Exec o) (ClusterDefaults_ProxyURL o).

Definition set_TLSServerName v (o : ConfigOverrides) :=
  mkOverrides (CurrentContext o) (Context_AuthInfo o) (Context_Cluster o)
    (ClusterInfo_InsecureSkipTLSVerify o) v
    (ClusterInfo_CertificateAuthorityData o) (ClusterInfo_Server o)
    (AuthInfo_ClientCertificateData o) (AuthInfo_ClientKeyData o)
    (AuthInfo_Username o) (AuthInfo_Password o) (AuthInfo_Token o)
    (AuthInfo_Exec o) (ClusterDefaults_ProxyURL o).

Definition set_CertificateAuthorityData v (o : ConfigOverrides) :=
  mkOverrides (CurrentContext o) (Context_AuthInfo o) (Context_Cluster o)
    (ClusterInfo_InsecureSkipTLSVerify o) (ClusterInfo_TLSServerName o)
    v (ClusterInfo_Server o)
    (AuthInfo_ClientCertificateData o) (AuthInfo_ClientKeyData o)
    (AuthInfo_Username o) (AuthInfo_Password o) (AuthInfo_Token o)
    (AuthInfo_Exec o) (ClusterDefaults_ProxyURL o).

Definition set_Server v (o : ConfigOverrides) :=
  mkOverrides (CurrentContext o) (Context_AuthInfo o) (Context_Cluster o)
    (ClusterInfo_InsecureSkipTLSVerify o) (ClusterInfo_TLSServerName o)
    (ClusterInfo_CertificateAuthorityData o) v
    (AuthInfo_ClientCertificateData o) (AuthInfo_ClientKeyData o)
    (AuthInfo_Username o) (AuthInfo_Password o) (AuthInfo_Token o)
    (AuthInfo_Exec o) (ClusterDefaults_ProxyURL o).

Definition set_ClientCertificateData v (o : ConfigOverrides) :=
  mkOverrides (CurrentContext o) (Context_AuthInfo o) (Context_Cluster o)
    (ClusterInfo_InsecureSkipTLSVerify o) (ClusterInfo_TLSServerName o)
    (ClusterInfo_CertificateAuthorityData o) (ClusterInfo_Server o)
    v (AuthInfo_ClientKeyData o)
    (AuthInfo_Username o) (AuthInfo_Password o) (AuthInfo_Token o)
    (AuthInfo_Exec o) (ClusterDefaults_ProxyURL o).

Definition set_ClientKeyData v (o : ConfigOverrides) :=
  mkOverrides (CurrentContext o) (Context_AuthInfo o) (Context_Cluster o)
    (ClusterInfo_InsecureSkipTLSVerify o) (ClusterInfo_TLSServerName o)
    (ClusterInfo_CertificateAuthorityData o) (ClusterInfo_Server o)
    (AuthInfo_ClientCertificateData o) v
    (AuthInfo_Username o) (AuthInfo_Password o) (AuthInfo_Token o)
    (AuthInfo_Exec o) (ClusterDefaults_ProxyURL o).

Definition set_Username v (o : ConfigOverrides) :=
  mkOverrides (CurrentContext o) (Context_AuthInfo o) (Context_Cluster o)
    (ClusterInfo_InsecureSkipTLSVerify o) (ClusterInfo_TLSServerName o)
    (ClusterInfo_CertificateAuthorityData o) (ClusterInfo_Server o)
    (AuthInfo_ClientCertificateData o) (AuthInfo_ClientKeyData o)
    v (AuthInfo_Password o) (AuthInfo_Token o)
    (AuthInfo_Exec o) (ClusterDefaults_ProxyURL o).

Definition set_Password v (o : ConfigOverrides) :=
  mkOverrides (CurrentContext o) (Context_AuthInfo o) (Context_Cluster o)
    (ClusterInfo_InsecureSkipTLSVerify o) (ClusterInfo_TLSServerName o)
    (ClusterInfo_CertificateAuthorityData o) (ClusterInfo_Server o)
    (AuthInfo_ClientCertificateData o) (AuthInfo_ClientKeyData o)
    (AuthInfo_Username o) v (AuthInfo_Token o)
    (AuthInfo_Exec o) (ClusterDefaults_ProxyURL o).

Definition set_Token v (o : ConfigOverrides) :=
  mkOverrides (CurrentContext o) (Context_AuthInfo o) (Context_Cluster o)
    (ClusterInfo_InsecureSkipTLSVerify o) (ClusterInfo_TLSServerName o)
    (ClusterInfo_CertificateAuthorityData o) (ClusterInfo_Server o)
    (AuthInfo_ClientCertificateData o) (AuthInfo_ClientKeyData o)
    (AuthInfo_Username o) (AuthInfo_Password o) v
    (AuthInfo_Exec o) (ClusterDefaults_ProxyURL o).

Definition set_Exec v (o : ConfigOverrides) :=
  mkOverrides (CurrentContext o) (Context_AuthInfo o) (Context_Cluster o)
    (ClusterInfo_InsecureSkipTLSVerify o) (ClusterInfo_TLSServerName o)
    (ClusterInfo_CertificateAuthorityData o) (ClusterInfo_Server o)
    (AuthInfo_ClientCertificateData o) (AuthInfo_ClientKeyData o)
    (AuthInfo_Username o) (AuthInfo_Password o) (AuthInfo_Token o)
    v (ClusterDefaults_ProxyURL o).

Definition set_ProxyURL v (o : ConfigOverrides) :=
  mkOverrides (CurrentContext o) (Context_AuthInfo o) (Context_Cluster o)
    (ClusterInfo_InsecureSkipTLSVerify o) (ClusterInfo_TLSServerName o)
    (ClusterInfo_CertificateAuthorityData o) (ClusterInfo_Server o)
    (AuthInfo_ClientCertificateData o) (AuthInfo_ClientKeyData o)
    (AuthInfo_Username o) (AuthInfo_Password o) (AuthInfo_Token o)
    (AuthInfo_Exec o) v.

(** [if v := <pointer>; v != nil { o.<field> = *v }] *)
Definition when_set {A} (p : option A) (f : A -> ConfigOverrides -> ConfigOverrides)
           (o : ConfigOverrides) : ConfigOverrides :=
  match p with
  | Some v => f v o
  | None => o
  end.

End Overrides.

Section InitializeConfiguration.
Context {F : Framework} {E : Environment} {C : ClientCmd}.

(** [expandStringSliceV2] *)
Definition expandStringSliceV2 (s : list TypesString) : list string :=
  map String_ s.

(** The [if / else if] chain that fills [configPaths]: a set
    [config_path], else a non-empty [config_paths], else a non-empty
    [KUBE_CONFIG_PATHS]. *)
Definition configPaths (d : KubernetesPatchProviderModel) : list string :=
  match ValueStringPointer (ConfigPath d) with
  | Some v => [v]
  | None =>
      if (0 <? length (ConfigPaths d))%nat then map String_ (ConfigPaths d)
      else
        let v := Getenv "KUBE_CONFIG_PATHS" in
        if negb (v =? "") then SplitList v else []
  end.

(** The loop over [configPaths]: it returns at the first path that
    [homedir.Expand] rejects. *)
Fixpoint expandPaths (ps : list string) : list string + error :=
  match ps with
  | [] => inl []
  | p :: ps' =>
      match homedir_Expand p with
      | inr err => inr err
      | inl path =>
          match expandPaths ps' with
          | inr err => inr err
          | inl rest => inl (path :: rest)
          end
      end
  end.

(** [loader.ExplicitPath] or [loader.Precedence], by the number of paths. *)
Definition set_loader_paths (expandedPaths : list string)
           (loader : ClientConfigLoadingRules) : ClientConfigLoadingRules :=
  if (length expandedPaths =? 1)%nat
  then mkLoadingRules (hd "" expandedPaths) (Precedence loader)
  else mkLoadingRules (ExplicitPath loader) expandedPaths.

(** The context overrides, applied when one of the three context
    attributes is set.  (The string [ctxSuffix] the code builds next to
    them is never read and is left out.) *)
Definition context_overrides (d : KubernetesPatchProviderModel)
           (overrides : ConfigOverrides) : ConfigOverrides :=
  let kubectx := ValueStringPointer (ConfigContext d) in
  let authInfo := ValueStringPointer (ConfigContextAuthInfo d) in
  let cl := ValueStringPointer (ConfigContextCluster d) in
  match kubectx, authInfo, cl with
  | None, None, None => overrides
  | _, _, _ =>
      let overrides := when_set kubectx set_CurrentContext overrides in
      let overrides := set_Context "" "" overrides in
      let overrides :=
        when_set authInfo (fun v o => set_Context v (Context_Cluster o) o) overrides in
      let overrides :=
        when_set cl (fun v o => set_Context (Context_AuthInfo o) v o) overrides in
      overrides
  end.

(** The block guarded by [len(configPaths) > 0]. *)
Definition load_paths (d : KubernetesPatchProviderModel)
           (loader : ClientConfigLoadingRules) (overrides : ConfigOverrides)
  : (ClientConfigLoadingRules * ConfigOverrides) + sdkdiag.Diagnostics :=
  let diags : sdkdiag.Diagnostics := [] in
  let configPaths := configPaths d in
  if (0 <? length configPaths)%nat then
    match expandPaths configPaths with
    | inr err => inr (diags ++ sdkdiag.FromErr err)
    | inl expandedPaths =>
        inl (set_loader_paths expandedPaths loader, context_overrides d overrides)
    end
  else inl (loader, overrides).

(** The [exec] block: only its first element is used. *)
Definition exec_of (spec : ExecModel) : ExecConfig :=
  mkExecConfig (String_ (APIVersion spec)) (String_ (Command spec))
    (expandStringSliceV2 (Args spec))
    (map (fun kv => (fst kv, String_ (snd kv))) (Env spec))
    "IfAvailable".

(** "Overriding with static configuration", up to the host. *)
Definition static_overrides_tls (d : KubernetesPatchProviderModel)
           (overrides : ConfigOverrides) : ConfigOverrides :=
  let overrides :=
    when_set (ValueBoolPointer (Insecure d)) set_InsecureSkipTLSVerify overrides in
  let overrides :=
    when_set (ValueStringPointer (TLSServerName d)) set_TLSServerName overrides in
  let overrides :=
    when_set (ValueStringPointer (ClusterCACertificate d))
      (fun v => set_CertificateAuthorityData (list_byte_of_string v)) overrides in
  let overrides :=
    when_set (ValueStringPointer (ClientCertificate d))
      (fun v => set_ClientCertificateData (list_byte_of_string v)) overrides in
  overrides.

(** The host override: the server URL, or the error of
    [DefaultServerURL]. *)
Definition static_overrides_host (d : KubernetesPatchProviderModel)
           (overrides : ConfigOverrides) : ConfigOverrides + sdkdiag.Diagnostics :=
  let diags : sdkdiag.Diagnostics := [] in
  match ValueStringPointer (Host d) with
  | Some v =>
      let hasCA := negb (length (ClusterInfo_CertificateAuthorityData overrides) =? 0)%nat in
      let hasCert := negb (length (AuthInfo_ClientCertificateData overrides) =? 0)%nat in
      let defaultTLS :=
        (hasCA || hasCert) && negb (ClusterInfo_InsecureSkipTLSVerify overrides) in
      match DefaultServerURL v defaultTLS with
      | inr err =>
          inr (diags ++ [ sdkdiag.mkDiagnostic diag.SeverityError
                            ("Failed to parse value for host: " ++ v) err ["host"] ])
      | inl host => inl (set_Server host overrides)
      end
  | None => inl overrides
  end.

(** The overrides after the host. *)
Definition static_overrides_auth (d : KubernetesPatchProviderModel)
           (overrides : ConfigOverrides) : ConfigOverrides :=
  let overrides := when_set (ValueStringPointer (Username d)) set_Username overrides in
  let overrides := when_set (ValueStringPointer (Password d)) set_Password overrides in
  let overrides :=
    when_set (ValueStringPointer (ClientKey d))
      (fun v => set_ClientKeyData (list_byte_of_string v)) overrides in
  let overrides := when_set (ValueStringPointer (Token d)) set_Token overrides in
  let overrides :=
    match Exec d with
    | spec :: _ => set_Exec (Some (exec_of spec)) overrides
    | [] => overrides
    end in
  let overrides := when_set (ValueStringPointer (ProxyURL d)) set_ProxyURL overrides in
  overrides.

(** [initializeConfiguration] up to the construction of the client
    config: the loading rules and the overrides it is built from, or
    the diagnostics of an early return. *)
Definition initialize_loader_overrides (d : KubernetesPatchProviderModel)
  : (ClientConfigLoadingRules * ConfigOverrides) + sdkdiag.Diagnostics :=
  match load_paths d ClientConfigLoadingRules_zero ConfigOverrides_zero with
  | inr ds => inr ds
  | inl (loader, overrides) =>
      match static_overrides_host d (static_overrides_tls d overrides) with
      | inr ds => inr ds
      | inl overrides => inl (loader, static_overrides_auth d overrides)
      end
  end.

(** [initializeConfiguration] *)
Definition initializeConfiguration (d : KubernetesPatchProviderModel)
  : option rest_Config * sdkdiag.Diagnostics :=
  let diags : sdkdiag.Diagnostics := [] in
  match initialize_loader_overrides d with
  | inr ds => (None, ds)
  | inl (loader, overrides) =>
      match ClientConfig loader overrides with
      | inr err =>
          (None,
           diags ++ [ sdkdiag.mkDiagnostic diag.SeverityWarning
                        "Provider was supplied an invalid configuration. Further operations likely to fail."
                        err [] ])
      | inl cfg => (Some cfg, diags)
      end
  end.

End InitializeConfiguration.

(* ------------------------------------------------------------------ *)
(** ** Derived notions used in the statements *)

(** The case labels of the second [switch] of [patch], in source order. *)
Definition patch_cases : list string :=
  [ "componentstatuses"; "configmaps"; "endpoints"; "events";
    "limitranges"; "namespaces"; "nodes"; "persistentvolumeclaims";
    "persistentvolumes"; "pods"; "podtemplates"; "replicationcontrollers";
    "resourcequotas"; "secrets"; "serviceaccounts"; "services";
    "controllerrevisions"; "daemonsets"; "deployments"; "replicasets";
    "statefulsets"; "cronjobs"; "jobs" ].

(** The cluster-scoped kinds among them. *)
Definition cluster_scoped : list string :=
  [ "componentstatuses"; "namespaces"; "nodes"; "persistentvolumes" ].

Section Derived.
Context {K : Kubernetes}.

(** The events a computation appended to the log between two worlds. *)
Definition events_since (w w' : World) : list Event :=
  skipn (length (trace w)) (trace w').

(** The request [patch] sends through typed client [c] for a model. *)
Definition call_for (c : TypedClient) (data : PatchResourceModel) : PatchCall :=
  mkPatchCall c (ValueString (Name data)) (patch_pt data)
    (list_byte_of_string (ValueString (Data data))) PatchOptions_zero.


End Derived.

Section DerivedOps.
Context {F : Framework}.

(** The diagnostic Create and Update add when the patch call fails. *)
Definition patch_error_diagnostic (e : error) : diag.Diagnostic :=
  diag.NewErrorDiagnostic "Client Error" ("Unable to patch, got error: " ++ e).

(** A failed patch call as the response shows it: the state is the one
    the response came with, the error diagnostic follows the
    diagnostics collected so far. *)
Definition error_surfaced (st : State) (diags : diag.Diagnostics) (e : error)
           (st' : State) (diags' : diag.Diagnostics) : Prop :=
  st' = st /\
  diags' = diags ++ [patch_error_diagnostic e] /\
  diag.HasError diags' = true.

(** A successful patch call as the response shows it: the model went
    through [State.Set]. *)
Definition success_surfaced (st : State) (diags : diag.Diagnostics)
           (data : PatchResourceModel)
           (st' : State) (diags' : diag.Diagnostics) : Prop :=
  st' = snd (State_Set data st) /\
  diags' = diag.Append diags (fst (State_Set data st)).

Definition surfaced (st : State) (diags : diag.Diagnostics)
           (data : PatchResourceModel) (err : option error)
           (st' : State) (diags' : diag.Diagnostics) : Prop :=
  match err with
  | Some e => error_surfaced st diags e st' diags'
  | None => success_surfaced st diags data st' diags'
  end.

End DerivedOps.

(* ------------------------------------------------------------------ *)
(** ** A small concrete cluster and framework, to run the code on *)

Module Reference.

Definition dquote : string := String (ascii_of_nat 34) EmptyString.

(** A clientset is named by the host it was built for; the cluster is
    the list of patches applied so far; patching the object named
    [missing] fails. *)
Definition K : Kubernetes :=
  {| Clientset := string;
     Cluster := list PatchCall;
     NewForConfig := fun cfg =>
       if cfg_Host cfg =? "" then inr "no host" else inl (cfg_Host cfg);
     serve_Patch := fun _ call cl =>
       if call_name call =? "missing" then (Some "not found", cl)
       else (None, cl ++ [call]) |}.

Definition zero_model : PatchResourceModel :=
  mkPatchResourceModel StringNull StringNull StringNull StringNull StringNull StringNull.

(** A plan and a configuration decode to themselves; an absent state
    cannot be read; writing a state stores the model. *)
Definition F : Framework :=
  {| Plan := PatchResourceModel;
     State := option PatchResourceModel;
     Config := KubernetesPatchProviderModel;
     Plan_Get := fun p => ([], p);
     State_Get := fun s =>
       match s with
       | Some d => ([], d)
       | None => ([diag.NewErrorDiagnostic "Value Conversion Error" "no state"], zero_model)
       end;
     State_Set := fun d _ => ([], Some d);
     Config_Get := fun c => ([], c);
     quote := fun s => (dquote ++ s ++ dquote)%string |}.

Definition E : Environment :=
  {| Getenv := fun k => if k =? "KUBE_CONFIG_PATHS" then "/etc/a:/etc/b" else "";
     SplitList := fun s => if s =? "/etc/a:/etc/b" then ["/etc/a"; "/etc/b"] else [s];
     homedir_Expand := fun p => if p =? "~bad" then inr "cannot expand user-specific home dir" else inl p;
     DefaultServerURL := fun h _ => if h =? "" then inr "host must be a URL or a host:port pair" else inl h |}.

Definition empty_provider : KubernetesPatchProviderModel :=
  mkProviderModel StringNull StringNull StringNull BoolNull StringNull StringNull
    StringNull StringNull [] StringNull StringNull StringNull StringNull
    StringNull StringNull [] [] [] [].

Definition with_Host (v : TypesString) (d : KubernetesPatchProviderModel) :=
  mkProviderModel v (Username d) (Password d) (Insecure d) (TLSServerName d)
    (ClientCertificate d) (ClientKey d) (ClusterCACertificate d) (ConfigPaths d)
    (ConfigPath d) (ConfigContext d) (ConfigContextAuthInfo d)
    (ConfigContextCluster d) (Token d) (ProxyURL d) (IgnoreAnnotations d)
    (IgnoreLabels d) (Exec d) (Experiments d).

Definition with_Token (v : TypesString) (d : KubernetesPatchProviderModel) :=
  mkProviderModel (Host d) (Username d) (Password d) (Insecure d) (TLSServerName d)
    (ClientCertificate d) (ClientKey d) (ClusterCACertificate d) (ConfigPaths d)
    (ConfigPath d) (ConfigContext d) (ConfigContextAuthInfo d)
    (ConfigContextCluster d) v (ProxyURL d) (IgnoreAnnotations d)
    (IgnoreLabels d) (Exec d) (Experiments d).

Definition with_ConfigPath (v : TypesString) (d : KubernetesPatchProviderModel) :=
  mkProviderModel (Host d) (Username d) (Password d) (Insecure d) (TLSServerName d)
    (ClientCertificate d) (ClientKey d) (ClusterCACertificate d) (ConfigPaths d)
    v (ConfigContext d) (ConfigContextAuthInfo d)
    (ConfigContextCluster d) (Token d) (ProxyURL d) (IgnoreAnnotations d)
    (IgnoreLabels d) (Exec d) (Experiments d).

Definition with_ConfigPaths (v : list TypesString) (d : KubernetesPatchProviderModel) :=
  mkProviderModel (Host d) (Username d) (Password d) (Insecure d) (TLSServerName d)
    (ClientCertificate d) (ClientKey d) (ClusterCACertificate d) v
    (ConfigPath d) (ConfigContext d) (ConfigContextAuthInfo d)
    (ConfigContextCluster d) (Token d) (ProxyURL d) (IgnoreAnnotations d)
    (IgnoreLabels d) (Exec d) (Experiments d).

(** The model of the acceptance test: a JSON patch of a deployment. *)
Definition deployment_patch : PatchResourceModel :=
  mkPatchResourceModel (StringValue "default") (StringValue "deployments")
    (StringValue "opentelemetry-operator-controller-manager")
    (StringValue "json") (StringValue "[]") StringUnknown.

Definition with_Resource (v : string) (d : PatchResourceModel) :=
  mkPatchResourceModel (Namespace d) (StringValue v) (Name d) (Type_ d) (Data d) (Id d).

Definition with_Type (v : string) (d : PatchResourceModel) :=
  mkPatchResourceModel (Namespace d) (Resource d) (Name d) (StringValue v) (Data d) (Id d).

Definition with_Name (v : string) (d : PatchResourceModel) :=
  mkPatchResourceModel (Namespace d) (Resource d) (StringValue v) (Type_ d) (Data d) (Id d).

Definition world0 : @World K := @mkWorld K [] [].

Definition r0 : @PatchResource K := @mkPatchResource K (Some "https://kube").

End Reference.

(* ------------------------------------------------------------------ *)
(** ** Further notions: the rest of the provider code *)

(** The namespaced kinds among the case labels of [patch]: those whose
    typed client is built with [namespace]. *)
Definition namespaced : list string :=
  [ "configmaps"; "endpoints"; "events"; "limitranges";
    "persistentvolumeclaims"; "pods"; "podtemplates";
    "replicationcontrollers"; "resourcequotas"; "secrets";
    "serviceaccounts"; "services"; "controllerrevisions"; "daemonsets";
    "deployments"; "replicasets"; "statefulsets"; "cronjobs"; "jobs" ].

(** [ValueBool] yields [false] for null and unknown values. *)
Definition ValueBool (v : TypesBool) : bool :=
  match v with
  | BoolValue b => b
  | _ => false
  end.

(** The flag [defaultTLS] of the host override, read off the declared
    attributes: a non-empty CA certificate or client certificate, and
    [insecure] not true. *)
Definition declared_defaultTLS (d : KubernetesPatchProviderModel) : bool :=
  (negb (ValueString (ClusterCACertificate d) =? "")
   || negb (ValueString (ClientCertificate d) =? ""))
  && negb (ValueBool (Insecure d)).

(** An element of a Go [[]interface{}] as [expandStringSlice] tells
    them apart: nil, a string, or a value of another type. *)
Inductive GoValue : Type :=
| go_nil
| go_string (s : string)
| go_other.

(** [expandStringSlice]: a nil element becomes the empty string; the type
    assertion [v.(string)] panics ([None]) on a value that is no string. *)
Fixpoint expandStringSlice (s : list GoValue) : option (list string) :=
  match s with
  | [] => Some []
  | v :: s' =>
      match v with
      | go_nil => option_map (cons "") (expandStringSlice s')
      | go_string x => option_map (cons x) (expandStringSlice s')
      | go_other => None
      end
  end.

(** More sample data to run the code on. *)
Module Samples.

(** A kubeconfig loader that rejects a configuration with neither a
    kubeconfig path nor a server, and otherwise copies the overrides. *)
Definition C : ClientCmd :=
  {| ClientConfig := fun l o =>
       if (ExplicitPath l =? "") && (length (Precedence l) =? 0)%nat
          && (ClusterInfo_Server o =? "")
       then inr "invalid configuration: no configuration has been provided"
       else inl (mkRestConfig (ClusterInfo_Server o) (AuthInfo_Username o)
                   (AuthInfo_Password o) (AuthInfo_Token o)
                   (ClusterInfo_InsecureSkipTLSVerify o)
                   (ClusterInfo_TLSServerName o)
                   (AuthInfo_ClientCertificateData o) (AuthInfo_ClientKeyData o)
                   (ClusterInfo_CertificateAuthorityData o) (AuthInfo_Exec o)
                   (ClusterDefaults_ProxyURL o)) |}.

(** An environment without [KUBE_CONFIG_PATHS]. *)
Definition E_noenv : Environment :=
  {| Getenv := fun _ => "";
     SplitList := fun s => [s];
     homedir_Expand := fun p =>
       if p =? "~bad" then inr "cannot expand user-specific home dir" else inl p;
     DefaultServerURL := fun h tls =>
       if h =? "" then inr "host must be a URL or a host:port pair"
       else inl ((if tls then "https://" else "http://") ++ h)%string |}.

Definition with_Exec (v : list ExecModel) (d : KubernetesPatchProviderModel) :=
  mkProviderModel (Host d) (Username d) (Password d) (Insecure d) (TLSServerName d)
    (ClientCertificate d) (ClientKey d) (ClusterCACertificate d) (ConfigPaths d)
    (ConfigPath d) (ConfigContext d) (ConfigContextAuthInfo d)
    (ConfigContextCluster d) (Token d) (ProxyURL d) (IgnoreAnnotations d)
    (IgnoreLabels d) v (Experiments d).

Definition with_ConfigContext (v : TypesString) (d : KubernetesPatchProviderModel) :=
  mkProviderModel (Host d) (Username d) (Password d) (Insecure d) (TLSServerName d)
    (ClientCertificate d) (ClientKey d) (ClusterCACertificate d) (ConfigPaths d)
    (ConfigPath d) v (ConfigContextAuthInfo d)
    (ConfigContextCluster d) (Token d) (ProxyURL d) (IgnoreAnnotations d)
    (IgnoreLabels d) (Exec d) (Experiments d).

Definition with_ClusterCACertificate (v : TypesString) (d : KubernetesPatchProviderModel) :=
  mkProviderModel (Host d) (Username d) (Password d) (Insecure d) (TLSServerName d)
    (ClientCertificate d) (ClientKey d) v (ConfigPaths d)
    (ConfigPath d) (ConfigContext d) (ConfigContextAuthInfo d)
    (ConfigContextCluster d) (Token d) (ProxyURL d) (IgnoreAnnotations d)
    (IgnoreLabels d) (Exec d) (Experiments d).

Definition with_Insecure (v : TypesBool) (d : KubernetesPatchProviderModel) :=
  mkProviderModel (Host d) (Username d) (Password d) v (TLSServerName d)
    (ClientCertificate d) (ClientKey d) (ClusterCACertificate d) (ConfigPaths d)
    (ConfigPath d) (ConfigContext d) (ConfigContextAuthInfo d)
    (ConfigContextCluster d) (Token d) (ProxyURL d) (IgnoreAnnotations d)
    (IgnoreLabels d) (Exec d) (Experiments d).

(** A provider configuration with a host, a CA certificate and a token. *)
Definition kube_provider : KubernetesPatchProviderModel :=
  with_ClusterCACertificate (StringValue "-----BEGIN CERTIFICATE-----")
    (Reference.with_Token (StringValue "secret")
       (Reference.with_Host (StringValue "kube:6443") Reference.empty_provider)).

(** The same with one kubeconfig path and a context. *)
Definition kubeconfig_provider : KubernetesPatchProviderModel :=
  with_ConfigContext (StringValue "kind-kind")
    (Reference.with_ConfigPath (StringValue "/home/u/.kube/config") kube_provider).

Definition aws_exec : ExecModel :=
  mkExecModel (StringValue "client.authentication.k8s.io/v1beta1")
    (StringValue "aws") [("AWS_PROFILE", StringValue "dev")]
    [StringValue "eks"; StringValue "get-token"].

Definition gcloud_exec : ExecModel :=
  mkExecModel (StringValue "client.authentication.k8s.io/v1")
    (StringValue "gke-gcloud-auth-plugin") [] [].

(** A plan the framework fails to decode. *)
Definition F_broken : Framework :=
  {| Plan := PatchResourceModel;
     State := option PatchResourceModel;
     Config := KubernetesPatchProviderModel;
     Plan_Get := fun p =>
       ([diag.NewErrorDiagnostic "Value Conversion Error" "cannot decode plan"], p);
     State_Get := fun s =>
       ([diag.NewErrorDiagnostic "Value Conversion Error" "cannot decode state"],
        Reference.zero_model);
     State_Set := fun d _ => ([], Some d);
     Config_Get := fun c =>
       ([diag.NewErrorDiagnostic "Value Conversion Error" "cannot decode config"], c);
     quote := fun s => (Reference.dquote ++ s ++ Reference.dquote)%string |}.

End Samples.

(* ================================================================== *)
(** * Properties *)

(** ** Diagnostics *)

Section DiagFacts.
Import diag.

Lemma Equal_severity a b : Equal a b = true -> severity a = severity b.
Proof.
  unfold Equal. intros H.
  repeat (apply andb_prop in H; destruct H as [H ?]).
  destruct (severity a), (severity b); simpl in H; congruence.
Qed.

(** A collection without errors contains no error diagnostic. *)
Lemma Contains_error_HasError diags d :
  severity d = SeverityError -> Contains diags d = true -> HasError diags = true.
Proof.
  unfold Contains, HasError. intros Hd H.
  apply existsb_exists in H. destruct H as [x [Hin Heq]].
  apply existsb_exists. exists x. split; [exact Hin|].
  apply Equal_severity in Heq. rewrite Heq, Hd. reflexivity.
Qed.

Lemma HasError_app diags ds :
  HasError (diags ++ ds) = HasError diags || HasError ds.
Proof. unfold HasError. apply existsb_app. Qed.

(** On a collection without errors [AddError] really appends. *)
Lemma AddError_fresh diags summary detail :
  HasError diags = false ->
  AddError diags summary detail = diags ++ [NewErrorDiagnostic summary detail].
Proof.
  intros H. unfold AddError, Append. simpl.
  destruct (Contains diags (NewErrorDiagnostic summary detail)) eqn:E; [|reflexivity].
  apply Contains_error_HasError in E; [congruence | reflexivity].
Qed.

(** After [AddError] the collection has an error, appended or not. *)
Lemma HasError_AddError diags summary detail :
  HasError (AddError diags summary detail) = true.
Proof.
  unfold AddError, Append. simpl.
  destruct (Contains diags (NewErrorDiagnostic summary detail)) eqn:E.
  - apply Contains_error_HasError in E; [exact E | reflexivity].
  - rewrite HasError_app. simpl. apply orb_true_r.
Qed.

Lemma Append_nil diags : Append diags [] = diags.
Proof. reflexivity. Qed.

End DiagFacts.

(** ** The log *)

Section TraceFacts.
Context {K : Kubernetes}.

Lemma events_since_app (w w' : World) evs :
  trace w' = trace w ++ evs -> events_since w w' = evs.
Proof.
  intros H. unfold events_since. rewrite H.
  rewrite skipn_app, skipn_all, Nat.sub_diag. reflexivity.
Qed.

Lemma events_since_refl (w : World) : events_since w w = [].
Proof. unfold events_since. apply skipn_all. Qed.

Lemma events_since_same (w w' : World) :
  trace w' = trace w -> events_since w w' = [].
Proof. intros H. unfold events_since. rewrite H. apply skipn_all. Qed.

End TraceFacts.

(** ** The dispatch of [patch] *)

Section PatchFacts.
Context {K : Kubernetes}.

(** A [Patch] that returns was sent through a non-nil clientset, was
    answered by the server and logged once. *)
Lemma Patch_inv client c name pt body opts (w w' : World) err :
  Patch client c name pt body opts w = Some (err, w') ->
  exists cs,
    client = Some cs /\
    serve_Patch cs (mkPatchCall c name pt body opts) (cluster w) = (err, cluster w') /\
    trace w' = trace w ++ [EvPatch cs (mkPatchCall c name pt body opts)].
Proof.
  unfold Patch. destruct client as [cs|]; [|discriminate].
  destruct (serve_Patch cs (mkPatchCall c name pt body opts) (cluster w)) as [e cl'] eqn:E.
  intros H. inversion H; subst. exists cs. simpl. auto.
Qed.

(** With a clientset the request is always answered. *)
Lemma Patch_some cs c name pt body opts (w : World) :
  Patch (Some cs) c name pt body opts w =
    Some (fst (serve_Patch cs (mkPatchCall c name pt body opts) (cluster w)),
          mkWorld (snd (serve_Patch cs (mkPatchCall c name pt body opts) (cluster w)))
                  (trace w ++ [EvPatch cs (mkPatchCall c name pt body opts)])).
Proof.
  unfold Patch.
  destruct (serve_Patch cs (mkPatchCall c name pt body opts) (cluster w)); reflexivity.
Qed.

Ltac in_cases := simpl; repeat (first [left; reflexivity | right]).

Ltac take_branch H e :=
  match type of H with
  | Patch _ ?c _ _ _ _ _ = _ =>
      let cs := fresh "cs" in
      let Hc := fresh "Hc" in
      let Hs := fresh "Hs" in
      let Ht := fresh "Ht" in
      apply Patch_inv in H; destruct H as [cs [Hc [Hs Ht]]];
      right; exists cs, c; unfold call_for;
      split; [rewrite e; in_cases|];
      split; [exact Hc|];
      split; [rewrite e; reflexivity|];
      split; [simpl; auto|];
      split; [exact Hs | exact Ht]
  end.

(** What a returning [patch] has done: either the resource is none of
    the case labels, and nothing happened; or exactly one request went
    through the stored clientset, to the typed client of that
    resource, with the name, patch type and body of the model. *)
Lemma patch_inv (r : PatchResource) data (w w' : World) err :
  patch r data w = Some (err, w') ->
  (~ In (ValueString (Resource data)) patch_cases /\ err = None /\ w' = w) \/
  (exists cs c,
      In (ValueString (Resource data)) patch_cases /\
      client r = Some cs /\
      resource_of c = ValueString (Resource data) /\
      (namespace_of c = None \/
       namespace_of c = Some (ValueString (Namespace data))) /\
      serve_Patch cs (call_for c data) (cluster w) = (err, cluster w') /\
      trace w' = trace w ++ [EvPatch cs (call_for c data)]).
Proof.
  cbv beta zeta delta [patch]. intros H.
  repeat match type of H with
         | context [String.eqb ?a ?b] =>
             destruct (String.eqb_spec a b) as [e|?]; [ take_branch H e | ]
         end.
  left. inversion H; subst. repeat split.
  simpl. intuition congruence.
Qed.

End PatchFacts.

Section PatchClaims.
Context {K : Kubernetes}.

Ltac in_cases := simpl; repeat (first [left; reflexivity | right]).

(** The schema's enumeration is the case labels of [patch] preceded by
    ["bindings"], which has no case. *)
Lemma resource_OneOf_cases : resource_OneOf = "bindings" :: patch_cases.
Proof. reflexivity. Qed.

Lemma length_resource_OneOf : length resource_OneOf = 24.
Proof. reflexivity. Qed.

(** For each case label and a stored clientset, [patch] returns after
    exactly one request, sent to the typed client of that resource. *)
Lemma patch_sends_one (r : PatchResource) data (w : World) cs :
  client r = Some cs ->
  In (ValueString (Resource data)) patch_cases ->
  exists c,
    resource_of c = ValueString (Resource data) /\
    patch r data w = Patch (Some cs) c (ValueString (Name data)) (patch_pt data)
                       (list_byte_of_string (ValueString (Data data)))
                       PatchOptions_zero w.
Proof.
  intros Hc Hin. cbv beta zeta delta [patch]. rewrite Hc.
  simpl in Hin.
  repeat (destruct Hin as [Hin|Hin];
          [ rewrite <- Hin; simpl; eexists; (split; [ | reflexivity ]); reflexivity | ]).
  contradiction.
Qed.

(** C1, at the value the dispatch misses: ["bindings"] passes the
    validator of the [resource] attribute, yet [patch] has no case for
    it, sends no request, leaves the world as it is and reports
    success. *)
Theorem patch_bindings_sends_nothing
        (r : PatchResource) ns name ty body id (w : World) :
  In "bindings" resource_OneOf /\
  ~ In "bindings" patch_cases /\
  patch r (mkPatchResourceModel ns (StringValue "bindings") name ty body id) w
    = Some (None, w).
Proof.
  split; [left; reflexivity|]. split.
  - simpl. intuition discriminate.
  - reflexivity.
Qed.

(** C3: every request a run of [patch] sends goes to the typed client
    whose resource is the declared resource string; and each of the 23
    case labels does reach its typed client, with one request. *)
Theorem patch_call_matches_resource (r : PatchResource) data (w : World) :
  (forall w' err cs call,
      patch r data w = Some (err, w') ->
      In (EvPatch cs call) (events_since w w') ->
      resource_of (call_client call) = ValueString (Resource data)) /\
  (forall cs,
      client r = Some cs ->
      In (ValueString (Resource data)) patch_cases ->
      exists c err w',
        resource_of c = ValueString (Resource data) /\
        patch r data w = Some (err, w') /\
        events_since w w' = [EvPatch cs (call_for c data)]).
Proof.
  split.
  - intros w' err cs call H Hin.
    apply patch_inv in H.
    destruct H as [[_ [_ Hw]] | [cs' [c [_ [_ [Hres [_ [_ Ht]]]]]]]].
    + subst w'. rewrite events_since_refl in Hin. contradiction.
    + rewrite (@events_since_app _ _ _ _ Ht) in Hin.
      destruct Hin as [Hin|[]]. inversion Hin; subst. exact Hres.
  - intros cs Hc Hin.
    destruct (patch_sends_one r data w Hc Hin) as [c [Hres Hp]].
    rewrite Patch_some in Hp.
    eexists c, _, _. split; [exact Hres|]. split; [exact Hp|].
    apply events_since_app. reflexivity.
Qed.

(** C2, on the code: for each of the 23 dispatched kinds, with a stored
    client and a [type] the validator accepts, [patch] does send a
    request, exactly one, and it carries the patch type that the
    attribute names: JSON patch for ["json"], merge patch for ["merge"],
    strategic merge patch for ["strategic"]; no request of any run
    carries another type.  At the resource ["bindings"], which the
    validator accepts as well, nothing is sent, so no patch type is
    passed on at all. *)
Theorem patch_passes_patch_type_when_dispatched
        (r : PatchResource) data (w : World) :
  (forall w' err cs call,
      patch r data w = Some (err, w') ->
      In (EvPatch cs call) (events_since w w') ->
      (ValueString (Type_ data) = "json" -> call_pt call = JSONPatchType) /\
      (ValueString (Type_ data) = "merge" -> call_pt call = MergePatchType) /\
      (ValueString (Type_ data) = "strategic" ->
       call_pt call = StrategicMergePatchType)) /\
  (forall cs,
      client r = Some cs ->
      In (ValueString (Resource data)) patch_cases ->
      In (ValueString (Type_ data)) type_OneOf ->
      exists c err w',
        patch r data w = Some (err, w') /\
        events_since w w' = [EvPatch cs (call_for c data)] /\
        resource_of c = ValueString (Resource data) /\
        In (call_pt (call_for c data))
           [JSONPatchType; MergePatchType; StrategicMergePatchType] /\
        (ValueString (Type_ data) = "json" ->
         call_pt (call_for c data) = JSONPatchType) /\
        (ValueString (Type_ data) = "merge" ->
         call_pt (call_for c data) = MergePatchType) /\
        (ValueString (Type_ data) = "strategic" ->
         call_pt (call_for c data) = StrategicMergePatchType)) /\
  (ValueString (Resource data) = "bindings" ->
   In "bindings" resource_OneOf /\
   patch r data w = Some (None, w) /\
   events_since w w = []).
Proof.
  split; [|split].
  - intros w' err cs call H Hin.
    apply patch_inv in H.
    destruct H as [[_ [_ Hw]] | [cs' [c [_ [_ [_ [_ [_ Ht]]]]]]]].
    + subst w'. rewrite events_since_refl in Hin. contradiction.
    + rewrite (@events_since_app _ _ _ _ Ht) in Hin.
      destruct Hin as [Hin|[]]. inversion Hin; subst. simpl.
      unfold patch_pt.
      repeat split; intros E; rewrite E; reflexivity.
  - intros cs Hc Hres Hty.
    destruct (patch_sends_one r data w Hc Hres) as [c [Hr Hp]].
    rewrite Patch_some in Hp.
    eexists c, _, _. split; [exact Hp|].
    split; [apply events_since_app; reflexivity|].
    split; [exact Hr|].
    simpl call_pt. unfold patch_pt. simpl in Hty.
    destruct Hty as [E|[E|[E|[]]]]; rewrite <- E; simpl;
      (split; [tauto|]); repeat split; intros; try reflexivity; discriminate.
  - intros Hb. split; [left; reflexivity|]. split.
    + cbv beta zeta delta [patch]. rewrite Hb. reflexivity.
    + apply events_since_refl.
Qed.

(** C10: for a cluster-scoped kind the whole outcome of [patch] (the
    request sent, the error, the cluster and the log afterwards) is the
    same whatever the namespace attribute holds. *)
Theorem cluster_scoped_ignores_namespace (r : PatchResource) data ns1 ns2 (w : World) :
  In (ValueString (Resource data)) cluster_scoped ->
  patch r (set_Namespace ns1 data) w = patch r (set_Namespace ns2 data) w.
Proof.
  intros Hin. cbv beta zeta delta [patch]. simpl in *.
  repeat (destruct Hin as [Hin|Hin]; [ rewrite <- Hin; simpl; reflexivity | ]).
  contradiction.
Qed.

End PatchClaims.

(** C2 on the acceptance test's deployment, once per patch type: one
    request with the media type of the declared type; and on the same
    patch aimed at [bindings]: no request. *)
Lemma patch_passes_patch_type_when_dispatched_witness :
  let sent t := call_for (AppsV1 (Deployments "default"))
                  (Reference.with_Type t Reference.deployment_patch) in
  let run data := @patch Reference.K Reference.r0 data Reference.world0 in
  (forall t, In t type_OneOf ->
     exists err w',
       run (Reference.with_Type t Reference.deployment_patch) = Some (err, w') /\
       events_since Reference.world0 w' = [@EvPatch Reference.K "https://kube" (sent t)]) /\
  call_pt (sent "json") = "application/json-patch+json" /\
  call_pt (sent "merge") = "application/merge-patch+json" /\
  call_pt (sent "strategic") = "application/strategic-merge-patch+json" /\
  run (Reference.with_Resource "bindings" Reference.deployment_patch)
    = Some (None, Reference.world0).
Proof.
  intros sent run.
  assert (Hd : forall t,
             In t type_OneOf ->
             exists c err w',
               run (Reference.with_Type t Reference.deployment_patch) = Some (err, w') /\
               events_since Reference.world0 w'
                 = [@EvPatch Reference.K "https://kube"
                      (call_for c (Reference.with_Type t Reference.deployment_patch))] /\
               resource_of c = "deployments" /\
               In (call_pt (call_for c (Reference.with_Type t Reference.deployment_patch)))
                  [JSONPatchType; MergePatchType; StrategicMergePatchType] /\
               (t = "json" ->
                call_pt (call_for c (Reference.with_Type t Reference.deployment_patch))
                  = JSONPatchType) /\
               (t = "merge" ->
                call_pt (call_for c (Reference.with_Type t Reference.deployment_patch))
                  = MergePatchType) /\
               (t = "strategic" ->
                call_pt (call_for c (Reference.with_Type t Reference.deployment_patch))
                  = StrategicMergePatchType)).
  { intros t Ht.
    apply (proj1 (proj2 (@patch_passes_patch_type_when_dispatched Reference.K
                           Reference.r0
                           (Reference.with_Type t Reference.deployment_patch)
                           Reference.world0)) "https://kube" eq_refl).
    - simpl. tauto.
    - exact Ht. }
  split.
  - intros t Ht. simpl in Ht.
    destruct Ht as [E|[E|[E|[]]]]; subst t; eexists _, _;
      split; reflexivity.
  - destruct (Hd "json" (or_introl eq_refl)) as [c1 [_ [_ [_ [_ [_ [_ [H1 _]]]]]]]].
    destruct (Hd "merge" (or_intror (or_introl eq_refl)))
      as [c2 [_ [_ [_ [_ [_ [_ [_ [H2 _]]]]]]]]].
    destruct (Hd "strategic" (or_intror (or_intror (or_introl eq_refl))))
      as [c3 [_ [_ [_ [_ [_ [_ [_ [_ H3]]]]]]]]].
    split; [exact (H1 eq_refl)|]. split; [exact (H2 eq_refl)|].
    split; [exact (H3 eq_refl)|].
    apply (proj2 (proj2 (@patch_passes_patch_type_when_dispatched Reference.K
                           Reference.r0
                           (Reference.with_Resource "bindings" Reference.deployment_patch)
                           Reference.world0)) eq_refl).
Defined.

(** C3 on the acceptance test's deployment. *)
Lemma patch_call_matches_resource_witness :
  exists err w' cs call,
    @patch Reference.K Reference.r0 Reference.deployment_patch Reference.world0
      = Some (err, w') /\
    In (EvPatch cs call) (events_since Reference.world0 w') /\
    resource_of (call_client call) = "deployments" /\
    call_client call = AppsV1 (Deployments "default").
Proof.
  eexists _, _, _, _. split; [reflexivity|]. split; [left; reflexivity|].
  split; [|reflexivity].
  eapply (proj1 (@patch_call_matches_resource Reference.K Reference.r0
                   Reference.deployment_patch Reference.world0));
    [reflexivity | left; reflexivity].
Defined.

(** C10 on a node patch under two namespaces. *)
Lemma cluster_scoped_ignores_namespace_witness :
  In "nodes" cluster_scoped /\
  @patch Reference.K Reference.r0
    (set_Namespace (StringValue "kube-system")
       (Reference.with_Resource "nodes" Reference.deployment_patch)) Reference.world0
  = @patch Reference.K Reference.r0
      (set_Namespace (StringValue "default")
         (Reference.with_Resource "nodes" Reference.deployment_patch)) Reference.world0.
Proof.
  split; [simpl; tauto|].
  apply (@cluster_scoped_ignores_namespace Reference.K). simpl. tauto.
Defined.

(** ** Create, Update and Delete *)

Section OpsClaims.
Context {K : Kubernetes} {F : Framework}.

(** [patch] never reads the [id] attribute. *)
Lemma patch_ignores_Id (r : PatchResource) v data :
  patch r (set_Id v data) = patch r data.
Proof. reflexivity. Qed.

(** Create with a plan that decodes without error, in terms of the
    outcome of its patch call. *)
Lemma Create_after_patch (r : PatchResource) plan resp (w w' : World) ds data err :
  Plan_Get plan = (ds, data) ->
  diag.HasError (diag.Append (resp_Diagnostics resp) ds) = false ->
  patch r data w = Some (err, w') ->
  exists resp',
    Create r (mkCreateRequest plan) resp w = Some (resp', w') /\
    surfaced (resp_State resp) (diag.Append (resp_Diagnostics resp) ds)
      (set_Id (StringValue "example-id") data) err
      (resp_State resp') (resp_Diagnostics resp').
Proof.
  intros Hget Hok Hp. unfold Create. simpl. rewrite Hget. simpl. rewrite Hok.
  unfold bind. rewrite patch_ignores_Id, Hp.
  destruct err as [e|]; simpl.
  - eexists. split; [reflexivity|]. simpl. unfold error_surfaced.
    split; [reflexivity|].
    rewrite AddError_fresh by exact Hok.
    split; [reflexivity|].
    rewrite HasError_app. simpl. apply orb_true_r.
  - destruct (State_Set (set_Id (StringValue "example-id") data) (resp_State resp))
      as [ds' st'] eqn:E.
    eexists. split; [reflexivity|]. simpl. unfold success_surfaced.
    rewrite E. split; reflexivity.
Qed.

(** The same for Update, which writes the model as planned. *)
Lemma Update_after_patch (r : PatchResource) plan st0 resp (w w' : World) ds data err :
  Plan_Get plan = (ds, data) ->
  diag.HasError (diag.Append (resp_Diagnostics resp) ds) = false ->
  patch r data w = Some (err, w') ->
  exists resp',
    Update r (mkUpdateRequest plan st0) resp w = Some (resp', w') /\
    surfaced (resp_State resp) (diag.Append (resp_Diagnostics resp) ds)
      data err (resp_State resp') (resp_Diagnostics resp').
Proof.
  intros Hget Hok Hp. unfold Update. simpl. rewrite Hget. simpl. rewrite Hok.
  unfold bind. rewrite Hp.
  destruct err as [e|]; simpl.
  - eexists. split; [reflexivity|]. simpl. unfold error_surfaced.
    split; [reflexivity|].
    rewrite AddError_fresh by exact Hok.
    split; [reflexivity|].
    rewrite HasError_app. simpl. apply orb_true_r.
  - destruct (State_Set data (resp_State resp)) as [ds' st'] eqn:E.
    eexists. split; [reflexivity|]. simpl. unfold success_surfaced.
    rewrite E. split; reflexivity.
Qed.

(** C4: on Create and on Update, once the plan is read without error,
    a failing patch call leaves the state untouched and adds one error
    diagnostic, and a succeeding one saves the model through
    [State.Set]. *)
Theorem create_update_surface_result
        (r : PatchResource) plan st0 resp (w w' : World) ds data err :
  Plan_Get plan = (ds, data) ->
  diag.HasError (diag.Append (resp_Diagnostics resp) ds) = false ->
  patch r data w = Some (err, w') ->
  (exists resp',
      Create r (mkCreateRequest plan) resp w = Some (resp', w') /\
      surfaced (resp_State resp) (diag.Append (resp_Diagnostics resp) ds)
        (set_Id (StringValue "example-id") data) err
        (resp_State resp') (resp_Diagnostics resp')) /\
  (exists resp',
      Update r (mkUpdateRequest plan st0) resp w = Some (resp', w') /\
      surfaced (resp_State resp) (diag.Append (resp_Diagnostics resp) ds)
        data err (resp_State resp') (resp_Diagnostics resp')).
Proof.
  intros Hget Hok Hp. split.
  - exact (Create_after_patch r plan resp w Hget Hok Hp).
  - exact (Update_after_patch r plan st0 resp w Hget Hok Hp).
Qed.

(** C8: when the patch call succeeds, Create saves a model whose [id] is
    the constant ["example-id"], whatever the plan held, the other
    attributes being those of the plan. *)
Theorem create_writes_example_id
        (r : PatchResource) plan resp (w w' : World) ds data :
  Plan_Get plan = (ds, data) ->
  diag.HasError (diag.Append (resp_Diagnostics resp) ds) = false ->
  patch r data w = Some (None, w') ->
  exists resp',
    Create r (mkCreateRequest plan) resp w = Some (resp', w') /\
    resp_State resp' =
      snd (State_Set
             (mkPatchResourceModel (Namespace data) (Resource data) (Name data)
                (Type_ data) (Data data) (StringValue "example-id"))
             (resp_State resp)).
Proof.
  intros Hget Hok Hp.
  destruct (Create_after_patch r plan resp w Hget Hok Hp) as [resp' [Hc [Hs _]]].
  exists resp'. split; [exact Hc | exact Hs].
Qed.

(** C9: Delete always returns, in the world it started in (no request,
    no change of the cluster, no panic even without a client), with the
    state it was given; its diagnostics are those of reading the prior
    state, so a read without diagnostics leaves the response as it
    was. *)
Theorem delete_calls_nothing (r : PatchResource) req resp (w : World) :
  exists resp',
    Delete r req resp w = Some (resp', w) /\
    events_since w w = [] /\
    resp_State resp' = resp_State resp /\
    resp_Diagnostics resp' =
      diag.Append (resp_Diagnostics resp) (fst (State_Get (delete_State req))) /\
    (fst (State_Get (delete_State req)) = [] -> resp' = resp).
Proof.
  unfold Delete. destruct (State_Get (delete_State req)) as [ds data] eqn:E. simpl.
  exists (mkResponse (resp_State resp) (diag.Append (resp_Diagnostics resp) ds)).
  split.
  - destruct (diag.HasError (diag.Append (resp_Diagnostics resp) ds)); reflexivity.
  - split; [apply events_since_refl|].
    repeat split. intros ->. destruct resp; reflexivity.
Qed.

End OpsClaims.

(** C4 on a patch the cluster rejects (the object named [missing]): Create
    and Update keep the absent state and report the client error. *)
Lemma create_update_surface_result_witness :
  let plan := Reference.with_Name "missing" Reference.deployment_patch in
  let resp := @mkResponse Reference.F None [] in
  exists w',
    (exists resp',
        @Create Reference.K Reference.F Reference.r0 (@mkCreateRequest Reference.F plan) resp
          Reference.world0 = Some (resp', w') /\
        @surfaced Reference.F None [] (set_Id (StringValue "example-id") plan)
          (Some "not found") (resp_State resp') (resp_Diagnostics resp')) /\
    (exists resp',
        @Update Reference.K Reference.F Reference.r0 (@mkUpdateRequest Reference.F plan None) resp
          Reference.world0 = Some (resp', w') /\
        @surfaced Reference.F None [] plan
          (Some "not found") (resp_State resp') (resp_Diagnostics resp')).
Proof.
  intros plan resp. eexists.
  apply (@create_update_surface_result Reference.K Reference.F Reference.r0
           plan None resp Reference.world0 _ [] plan (Some "not found"));
    reflexivity.
Defined.

(** C8 on the acceptance test's deployment: whatever the plan's [id], the
    stored model has the id ["example-id"]. *)
Lemma create_writes_example_id_witness :
  exists resp' w',
    @Create Reference.K Reference.F Reference.r0
      (@mkCreateRequest Reference.F Reference.deployment_patch)
      (@mkResponse Reference.F None [])
      Reference.world0 = Some (resp', w') /\
    resp_State resp' =
      Some (mkPatchResourceModel (StringValue "default") (StringValue "deployments")
              (StringValue "opentelemetry-operator-controller-manager")
              (StringValue "json") (StringValue "[]") (StringValue "example-id")).
Proof.
  destruct (@create_writes_example_id Reference.K Reference.F Reference.r0
              Reference.deployment_patch (@mkResponse Reference.F None [])
              Reference.world0 _ [] Reference.deployment_patch
              eq_refl eq_refl eq_refl) as [resp' [Hc Hs]].
  exists resp'. eexists. split; [exact Hc | exact Hs].
Defined.

(** C9 on a resource with a stored state and no client at all. *)
Lemma delete_calls_nothing_witness :
  let req := @mkDeleteRequest Reference.F (Some Reference.deployment_patch) in
  let resp := @mkResponse Reference.F (Some Reference.deployment_patch) [] in
  @Delete Reference.K Reference.F (@NewPatchResource Reference.K) req resp Reference.world0
    = Some (resp, Reference.world0).
Proof.
  intros req resp.
  destruct (@delete_calls_nothing Reference.K Reference.F
              (@NewPatchResource Reference.K) req resp Reference.world0)
    as [resp' [Hd [_ [_ [_ Hsame]]]]].
  rewrite (Hsame eq_refl) in Hd. exact Hd.
Defined.

(** ** The client: built once, stored, reused *)

Section ClientClaims.
Context {K : Kubernetes} {F : Framework}.







(** What the provider's Configure does to the world and the response,
    by the answer of [NewForConfig]. *)
Lemma Configure_inv req resp (w w' : World) resp' :
  KubernetesPatchProvider_Configure req resp w = Some (resp', w') ->
  let ds := fst (Config_Get (pc_Config req)) in
  let cfg := Configure_cfg (snd (Config_Get (pc_Config req))) in
  (diag.HasError (diag.Append (pc_Diagnostics resp) ds) = true /\ w' = w /\
   diag.HasError (pc_Diagnostics resp') = true) \/
  (diag.HasError (diag.Append (pc_Diagnostics resp) ds) = false /\
   trace w' = trace w ++ [EvNewForConfig cfg] /\ cluster w' = cluster w /\
   match NewForConfig cfg with
   | inl cs => ResourceData resp' = any_Clientset (Some cs) /\
               DataSourceData resp' = any_other "*http.Client" /\
               pc_Diagnostics resp' = diag.Append (pc_Diagnostics resp) ds
   | inr err => ResourceData resp' = ResourceData resp /\
                diag.HasError (pc_Diagnostics resp') = true
   end).
Proof.
  unfold KubernetesPatchProvider_Configure.
  destruct (Config_Get (pc_Config req)) as [ds data]. simpl.
  destruct (diag.HasError (diag.Append (pc_Diagnostics resp) ds)) eqn:Hh.
  - intros H. inversion H; subst. left. simpl. auto.
  - unfold bind, callNewForConfig.
    destruct (NewForConfig (Configure_cfg data)) as [cs|err] eqn:Hn;
      intros H; inversion H; subst; right; simpl;
      (split; [reflexivity|]); (split; [reflexivity|]); (split; [reflexivity|]).
    + auto.
    + split; [reflexivity | apply HasError_AddError].
Qed.


(** C5, on the code: whatever the provider configuration declares, the
    [rest.Config] from which Configure builds the client has no CA
    certificate, no client certificate, no client key, no token, no
    user name or password and no exec plugin; at most its host is set.
    [initializeConfiguration] is not called. *)
Theorem Configure_ignores_credentials req resp (w w' : World) resp' cfg :
  KubernetesPatchProvider_Configure req resp w = Some (resp', w') ->
  In (EvNewForConfig cfg) (events_since w w') ->
  cfg_CAData cfg = [] /\ cfg_CertData cfg = [] /\ cfg_KeyData cfg = [] /\
  cfg_BearerToken cfg = "" /\ cfg_Username cfg = "" /\ cfg_Password cfg = "" /\
  cfg_ExecProvider cfg = None.
Proof.
  intros H Hin. apply Configure_inv in H. simpl in H.
  destruct H as [[_ [Hw _]] | [_ [Ht _]]].
  - subst w'. rewrite events_since_refl in Hin. contradiction.
  - rewrite (@events_since_app _ _ _ _ Ht) in Hin.
    destruct Hin as [Hin|[]]. inversion Hin; subst.
    unfold Configure_cfg.
    destruct (IsNull (Host _)), (IsNull (ClusterCACertificate _)); simpl;
      repeat split.
Qed.

End ClientClaims.


(** C5 at a configuration that declares a host and a token: the token
    does not reach the [rest.Config] the client is built from. *)
Lemma Configure_ignores_credentials_witness :
  let d := Reference.with_Token (StringValue "secret")
             (Reference.with_Host (StringValue "https://kube") Reference.empty_provider) in
  let cfg := @Configure_cfg Reference.F d in
  cfg_CAData cfg = [] /\ cfg_CertData cfg = [] /\ cfg_KeyData cfg = [] /\
  cfg_BearerToken cfg = "" /\ cfg_Username cfg = "" /\ cfg_Password cfg = "" /\
  cfg_ExecProvider cfg = None.
Proof.
  intros d cfg.
  apply (@Configure_ignores_credentials Reference.K Reference.F
           (@mkProviderConfigureRequest Reference.F d)
           (@mkProviderConfigureResponse Reference.K []
              (@any_nil Reference.K) (@any_nil Reference.K))
           Reference.world0 _ _ cfg eq_refl).
  left. reflexivity.
Defined.

(** ** Kubeconfig paths *)

Section ConfigClaims.
Context {F : Framework} {E : Environment}.

Lemma load_paths_loader d loader overrides loader' overrides' ps :
  expandPaths (configPaths d) = inl ps ->
  load_paths d loader overrides = inl (loader', overrides') ->
  loader' = if (0 <? length (configPaths d))%nat then set_loader_paths ps loader
            else loader.
Proof.
  intros Hexp. unfold load_paths.
  destruct (0 <? length (configPaths d))%nat.
  - rewrite Hexp. intros H. inversion H. reflexivity.
  - intros H. inversion H. reflexivity.
Qed.

Lemma expandPaths_length ps qs :
  expandPaths ps = inl qs -> length qs = length ps.
Proof.
  revert qs. induction ps as [|p ps IH]; intros qs H; simpl in H.
  - inversion H. reflexivity.
  - destruct (homedir_Expand p) as [path|err]; [|discriminate].
    destruct (expandPaths ps) as [rest|err]; [|discriminate].
    inversion H. simpl. f_equal. apply IH. reflexivity.
Qed.

(** The loading rules survive the rest of [initializeConfiguration]. *)
Lemma initialize_loader d loader overrides :
  initialize_loader_overrides d = inl (loader, overrides) ->
  exists overrides',
    load_paths d ClientConfigLoadingRules_zero ConfigOverrides_zero
      = inl (loader, overrides').
Proof.
  unfold initialize_loader_overrides.
  destruct (load_paths d ClientConfigLoadingRules_zero ConfigOverrides_zero)
    as [[l o]|ds]; [|discriminate].
  destruct (static_overrides_host d (static_overrides_tls d o)) as [o'|ds];
    [|discriminate].
  intros H. inversion H; subst. exists o. reflexivity.
Qed.

(** C7: a set [config_path] is the only path, whatever [config_paths]
    and the environment hold; otherwise a non-empty [config_paths]
    gives the paths, whatever the environment holds; otherwise a
    non-empty [KUBE_CONFIG_PATHS] gives them.  When the paths expand
    and [initializeConfiguration] gets to build the client config, one
    path is the loader's explicit path and leaves the precedence list
    empty, several paths are the precedence list and leave the
    explicit path empty. *)
Theorem kubeconfig_path_precedence (d : KubernetesPatchProviderModel) :
  (forall v, ValueStringPointer (ConfigPath d) = Some v -> configPaths d = [v]) /\
  (ValueStringPointer (ConfigPath d) = None -> ConfigPaths d <> [] ->
   configPaths d = map String_ (ConfigPaths d)) /\
  (ValueStringPointer (ConfigPath d) = None -> ConfigPaths d = [] ->
   Getenv "KUBE_CONFIG_PATHS" <> "" ->
   configPaths d = SplitList (Getenv "KUBE_CONFIG_PATHS")) /\
  (forall ps loader overrides,
      expandPaths (configPaths d) = inl ps ->
      initialize_loader_overrides d = inl (loader, overrides) ->
      (forall p, ps = [p] -> ExplicitPath loader = p /\ Precedence loader = []) /\
      (length ps > 1 -> Precedence loader = ps /\ ExplicitPath loader = "")).
Proof.
  split; [|split; [|split]].
  - intros v Hv. unfold configPaths. rewrite Hv. reflexivity.
  - intros Hn Hne. unfold configPaths. rewrite Hn.
    destruct (ConfigPaths d); [congruence | reflexivity].
  - intros Hn He Hv. unfold configPaths. rewrite Hn, He. simpl.
    destruct (String.eqb_spec (Getenv "KUBE_CONFIG_PATHS") ""); [congruence | reflexivity].
  - intros ps loader overrides Hexp Hinit.
    destruct (initialize_loader d Hinit) as [o' Hload].
    pose proof (load_paths_loader d _ _ Hexp Hload) as Hl.
    pose proof (expandPaths_length _ Hexp) as Hlen.
    split.
    + intros p ->. simpl in Hlen. rewrite <- Hlen in Hl. simpl in Hl.
      subst loader. split; reflexivity.
    + intros Hgt. rewrite <- Hlen in Hl.
      destruct ps as [|p [|q ps]]; simpl in Hgt; try lia.
      simpl in Hl. subst loader. split; reflexivity.
Qed.

End ConfigClaims.

(** C7 on a configuration with both [config_path] and [config_paths]
    (one explicit path), and on an empty one, whose two paths come from
    the environment (a precedence list). *)
Lemma kubeconfig_path_precedence_witness :
  let d1 := Reference.with_ConfigPath (StringValue "/home/u/.kube/config")
              (Reference.with_ConfigPaths [StringValue "/x"; StringValue "/y"]
                 Reference.empty_provider) in
  @configPaths Reference.F Reference.E d1 = ["/home/u/.kube/config"] /\
  (exists loader o,
      @initialize_loader_overrides Reference.F Reference.E d1 = inl (loader, o) /\
      ExplicitPath loader = "/home/u/.kube/config" /\ Precedence loader = []) /\
  (exists loader o,
      @initialize_loader_overrides Reference.F Reference.E Reference.empty_provider
        = inl (loader, o) /\
      Precedence loader = ["/etc/a"; "/etc/b"] /\ ExplicitPath loader = "").
Proof.
  intros d1.
  pose proof (@kubeconfig_path_precedence Reference.F Reference.E d1) as [H1 [_ [_ H4]]].
  pose proof (@kubeconfig_path_precedence Reference.F Reference.E Reference.empty_provider)
    as [_ [_ [_ H4']]].
  split; [apply H1; reflexivity|]. split.
  - eexists _, _. split; [lazy; reflexivity|].
    apply (proj1 (H4 ["/home/u/.kube/config"] _ _ eq_refl eq_refl) _ eq_refl).
  - eexists _, _. split; [lazy; reflexivity|].
    apply (proj2 (H4' ["/etc/a"; "/etc/b"] _ _ eq_refl eq_refl)).
    simpl. lia.
Defined.

(** ** What [initializeConfiguration] resolves *)

Section ResolutionFacts.
Context {F : Framework} {E : Environment}.

(** The last block of overrides: token, client key and exec plugin of
    the provider configuration reach the overrides. *)
Lemma static_overrides_auth_reflects d o :
  AuthInfo_Token (static_overrides_auth d o)
    = match ValueStringPointer (Token d) with
      | Some v => v
      | None => AuthInfo_Token o
      end /\
  AuthInfo_ClientKeyData (static_overrides_auth d o)
    = match ValueStringPointer (ClientKey d) with
      | Some v => list_byte_of_string v
      | None => AuthInfo_ClientKeyData o
      end /\
  AuthInfo_Exec (static_overrides_auth d o)
    = match Exec d with
      | spec :: _ => Some (exec_of spec)
      | [] => AuthInfo_Exec o
      end.
Proof.
  unfold static_overrides_auth, when_set.
  destruct (ValueStringPointer (Username d)), (ValueStringPointer (Password d)),
    (ValueStringPointer (ClientKey d)), (ValueStringPointer (Token d)),
    (Exec d), (ValueStringPointer (ProxyURL d)); simpl; repeat split.
Qed.

(** Hence, whenever [initializeConfiguration] gets to build the client
    config, the overrides it passes carry the declared token, client
    key and exec plugin. *)
Lemma initialize_overrides_reflect d loader overrides :
  initialize_loader_overrides d = inl (loader, overrides) ->
  (forall v, Token d = StringValue v -> AuthInfo_Token overrides = v) /\
  (forall v, ClientKey d = StringValue v ->
             AuthInfo_ClientKeyData overrides = list_byte_of_string v) /\
  (forall spec rest, Exec d = spec :: rest ->
                     AuthInfo_Exec overrides = Some (exec_of spec)).
Proof.
  unfold initialize_loader_overrides.
  destruct (load_paths d ClientConfigLoadingRules_zero ConfigOverrides_zero)
    as [[l o]|ds]; [|discriminate].
  destruct (static_overrides_host d (static_overrides_tls d o)) as [o'|ds];
    [|discriminate].
  intros H. inversion H; subst.
  destruct (static_overrides_auth_reflects d o') as [Ht [Hk He]].
  repeat split.
  - intros v Hv. rewrite Ht, Hv. reflexivity.
  - intros v Hv. rewrite Hk, Hv. reflexivity.
  - intros spec rest Hs. rewrite He, Hs. reflexivity.
Qed.

End ResolutionFacts.

(* ================================================================== *)
(** * Further properties of the patch resource *)

Section PatchMore.
Context {K : Kubernetes}.

Ltac in_list := simpl; repeat (first [left; reflexivity | right]).

(** A typed client without a namespace is one of the four cluster-scoped
    ones. *)
Lemma namespace_of_None c :
  namespace_of c = None -> In (resource_of c) cluster_scoped.
Proof.
  destruct c as [i|i|i]; destruct i; simpl; intros H;
    try discriminate; tauto.
Qed.

Lemma namespaced_not_cluster_scoped s :
  In s namespaced -> ~ In s cluster_scoped.
Proof.
  intros Hn Hc. simpl in Hc.
  repeat (destruct Hc as [Hc|Hc];
          [ subst s; simpl in Hn; intuition discriminate | ]).
  exact Hc.
Qed.

(** The case labels are the cluster-scoped and the namespaced kinds. *)
Lemma patch_cases_split s :
  In s patch_cases <-> In s cluster_scoped \/ In s namespaced.
Proof. simpl. tauto. Qed.

(** For each of the 19 namespaced kinds the request goes to the typed
    client built with the declared namespace (the empty string when the
    attribute is null or unknown). *)
Theorem patch_namespaced_uses_namespace
        (r : PatchResource) data (w w' : World) err cs call :
  patch r data w = Some (err, w') ->
  In (EvPatch cs call) (events_since w w') ->
  In (ValueString (Resource data)) namespaced ->
  namespace_of (call_client call) = Some (ValueString (Namespace data)).
Proof.
  intros H Hin Hns. apply patch_inv in H.
  destruct H as [[_ [_ Hw]] | [cs' [c [_ [_ [Hres [Hn [_ Ht]]]]]]]].
  - subst w'. rewrite events_since_refl in Hin. contradiction.
  - rewrite (@events_since_app _ _ _ _ Ht) in Hin.
    destruct Hin as [Hin|[]]. inversion Hin; subst. simpl.
    destruct Hn as [Hn|Hn]; [|exact Hn].
    apply namespace_of_None in Hn. rewrite Hres in Hn.
    exfalso. exact (@namespaced_not_cluster_scoped _ Hns Hn).
Qed.

(** Every request [patch] sends goes through the stored clientset and
    carries the declared name, the bytes of the declared patch body and
    the zero [PatchOptions]; nothing else is logged. *)
Theorem patch_request_arguments
        (r : PatchResource) data (w w' : World) err cs call :
  patch r data w = Some (err, w') ->
  In (EvPatch cs call) (events_since w w') ->
  client r = Some cs /\
  call_name call = ValueString (Name data) /\
  call_data call = list_byte_of_string (ValueString (Data data)) /\
  call_opts call = PatchOptions_zero /\
  events_since w w' = [EvPatch cs call].
Proof.
  intros H Hin. apply patch_inv in H.
  destruct H as [[_ [_ Hw]] | [cs' [c [_ [Hc [_ [_ [_ Ht]]]]]]]].
  - subst w'. rewrite events_since_refl in Hin. contradiction.
  - rewrite (@events_since_app _ _ _ _ Ht) in Hin |- *.
    destruct Hin as [Hin|[]]. inversion Hin; subst. simpl. auto.
Qed.

(** The first switch agrees with the validator of [type]: the patch type
    passed on is one of the three media types exactly for the three
    accepted values, and the empty string for anything else. *)
Theorem patch_pt_valid_iff data :
  (In (ValueString (Type_ data)) type_OneOf ->
   In (patch_pt data) [JSONPatchType; MergePatchType; StrategicMergePatchType]) /\
  (~ In (ValueString (Type_ data)) type_OneOf -> patch_pt data = "").
Proof.
  unfold patch_pt, type_OneOf.
  destruct (String.eqb_spec (ValueString (Type_ data)) "json") as [e1|n1];
    [split; [intros _; in_list | intros H; exfalso; apply H; rewrite e1; in_list]|].
  destruct (String.eqb_spec (ValueString (Type_ data)) "merge") as [e2|n2];
    [split; [intros _; in_list | intros H; exfalso; apply H; rewrite e2; in_list]|].
  destruct (String.eqb_spec (ValueString (Type_ data)) "strategic") as [e3|n3];
    [split; [intros _; in_list | intros H; exfalso; apply H; rewrite e3; in_list]|].
  split; [|reflexivity].
  simpl. intuition congruence.
Qed.

(** [patch] falls through its switch when no case label matches. *)
Lemma patch_falls_through (r : PatchResource) data (w : World) :
  ~ In (ValueString (Resource data)) patch_cases ->
  patch r data w = Some (None, w).
Proof.
  intros H. cbv beta zeta delta [patch].
  repeat match goal with
         | |- context [String.eqb ?a ?b] =>
             destruct (String.eqb_spec a b) as [e|?];
             [ exfalso; apply H; rewrite e; in_list | ]
         end.
  reflexivity.
Qed.

(** A resource string that is none of the 23 case labels (a null or
    unknown attribute included) makes [patch] a no-op that reports
    success, with or without a client. *)
Theorem patch_unmatched_resource_noop (r : PatchResource) data (w : World) :
  ~ In (ValueString (Resource data)) patch_cases ->
  patch r data w = Some (None, w).
Proof. intros H. exact (patch_falls_through r data w H). Qed.

(** Without a stored client, [patch] of any of the 23 kinds panics. *)
Lemma patch_nil_client_panics (r : PatchResource) data (w : World) :
  client r = None ->
  In (ValueString (Resource data)) patch_cases ->
  patch r data w = None.
Proof.
  intros Hc Hin. cbv beta zeta delta [patch]. rewrite Hc. simpl in Hin.
  repeat (destruct Hin as [Hin|Hin]; [ rewrite <- Hin; simpl; reflexivity | ]).
  contradiction.
Qed.

End PatchMore.

Section OpsMore.
Context {K : Kubernetes} {F : Framework}.

(** A resource that never got a client (a fresh one, or one configured
    with nil provider data) panics in [patch], Create and Update for
    every one of the 23 kinds, once the plan is read without error. *)
Theorem unconfigured_resource_panics
        (r : PatchResource) plan st0 resp (w : World) ds data :
  client r = None ->
  In (ValueString (Resource data)) patch_cases ->
  Plan_Get plan = (ds, data) ->
  diag.HasError (diag.Append (resp_Diagnostics resp) ds) = false ->
  patch r data w = None /\
  Create r (mkCreateRequest plan) resp w = None /\
  Update r (mkUpdateRequest plan st0) resp w = None.
Proof.
  intros Hc Hin Hget Hok.
  pose proof (patch_nil_client_panics r data w Hc Hin) as Hp.
  split; [exact Hp|]. split.
  - unfold Create. simpl. rewrite Hget. simpl. rewrite Hok.
    unfold bind. rewrite patch_ignores_Id, Hp. reflexivity.
  - unfold Update. simpl. rewrite Hget. simpl. rewrite Hok.
    unfold bind. rewrite Hp. reflexivity.
Qed.

(** [PatchResource.Configure] by the provider data it gets: nil leaves
    the resource and the response as they are; a clientset pointer is
    stored, without a diagnostic; a value of any other type leaves the
    resource as it is and the response with an error. *)
Theorem resource_Configure_cases (r : PatchResource) (resp : ConfigureResponse) :
  PatchResource_Configure r (mkConfigureRequest any_nil) resp = (r, resp) /\
  (forall p,
      PatchResource_Configure r (mkConfigureRequest (any_Clientset p)) resp
        = (mkPatchResource p, resp)) /\
  (forall typeName,
      fst (PatchResource_Configure r (mkConfigureRequest (any_other typeName)) resp) = r /\
      diag.HasError
        (cfgresp_Diagnostics
           (snd (PatchResource_Configure r (mkConfigureRequest (any_other typeName)) resp)))
        = true).
Proof.
  split; [reflexivity|]. split; [reflexivity|].
  intros typeName. split; [reflexivity|].
  simpl. apply HasError_AddError.
Qed.

(** When reading the plan leaves an error in the diagnostics, Create and
    Update return at once: no request, the world and the state as they
    were, no panic even without a client. *)
Theorem plan_error_returns_early
        (r : PatchResource) plan st0 resp (w : World) ds data :
  Plan_Get plan = (ds, data) ->
  diag.HasError (diag.Append (resp_Diagnostics resp) ds) = true ->
  Create r (mkCreateRequest plan) resp w
    = Some (mkResponse (resp_State resp) (diag.Append (resp_Diagnostics resp) ds), w) /\
  Update r (mkUpdateRequest plan st0) resp w
    = Some (mkResponse (resp_State resp) (diag.Append (resp_Diagnostics resp) ds), w).
Proof.
  intros Hget Herr. unfold Create, Update. simpl. rewrite Hget. simpl.
  rewrite Herr. split; reflexivity.
Qed.

(** Create and Update do the same to the world: for one plan they send
    the same request, get the same answer and leave the same cluster and
    log, or both panic. *)
Theorem Create_Update_same_world (r : PatchResource) plan st0 resp (w : World) :
  option_map snd (Create r (mkCreateRequest plan) resp w)
  = option_map snd (Update r (mkUpdateRequest plan st0) resp w).
Proof.
  unfold Create, Update. simpl.
  destruct (Plan_Get plan) as [ds data]. simpl.
  destruct (diag.HasError (diag.Append (resp_Diagnostics resp) ds)); [reflexivity|].
  unfold bind. rewrite patch_ignores_Id.
  destruct (patch r data w) as [[err w1]|]; [|reflexivity].
  destruct err as [e|]; [reflexivity|].
  destruct (State_Set (set_Id (StringValue "example-id") data) (resp_State resp)).
  destruct (State_Set data (resp_State resp)).
  reflexivity.
Qed.

(** Read sends nothing and never panics.  It leaves the state untouched
    when reading it left an error, and otherwise writes back the very
    model it read. *)
Theorem Read_refreshes_nothing (r : PatchResource) req resp (w : World) :
  let ds := fst (State_Get (read_State req)) in
  let data := snd (State_Get (read_State req)) in
  let diags := diag.Append (resp_Diagnostics resp) ds in
  exists resp',
    Read r req resp w = Some (resp', w) /\
    (diag.HasError diags = true -> resp' = mkResponse (resp_State resp) diags) /\
    (diag.HasError diags = false ->
     resp_State resp' = snd (State_Set data (resp_State resp)) /\
     resp_Diagnostics resp'
       = diag.Append diags (fst (State_Set data (resp_State resp)))).
Proof.
  unfold Read. destruct (State_Get (read_State req)) as [ds data]. simpl.
  destruct (diag.HasError (diag.Append (resp_Diagnostics resp) ds)) eqn:Hh.
  - eexists. split; [reflexivity|]. split; [reflexivity | discriminate].
  - destruct (State_Set data (resp_State resp)) as [ds' st'].
    eexists. split; [reflexivity|]. split; [discriminate|]. intros _. split; reflexivity.
Qed.

End OpsMore.

(** The acceptance test's deployment patch goes to namespace [default]. *)
Lemma patch_namespaced_uses_namespace_witness :
  In "deployments" namespaced /\
  namespace_of (call_client
                  (call_for (AppsV1 (Deployments "default")) Reference.deployment_patch))
    = Some "default".
Proof.
  split; [simpl; tauto|].
  eapply (@patch_namespaced_uses_namespace Reference.K Reference.r0
            Reference.deployment_patch Reference.world0);
    [reflexivity | left; reflexivity | simpl; tauto].
Defined.

(** Its request carries the deployment's name and the body ["[]"]. *)
Lemma patch_request_arguments_witness :
  let call := call_for (AppsV1 (Deployments "default")) Reference.deployment_patch in
  client Reference.r0 = Some "https://kube" /\
  call_name call = "opentelemetry-operator-controller-manager" /\
  call_data call = list_byte_of_string "[]" /\
  call_opts call = PatchOptions_zero.
Proof.
  intros call.
  destruct (@patch_request_arguments Reference.K Reference.r0
              Reference.deployment_patch Reference.world0 _ _ "https://kube" call
              eq_refl (or_introl eq_refl))
    as [H1 [H2 [H3 [H4 _]]]].
  repeat split; assumption.
Defined.

(** The type ["json"] is accepted, ["yaml"] is not and gives the empty
    patch type. *)
Lemma patch_pt_valid_iff_witness :
  In (patch_pt (Reference.with_Type "json" Reference.deployment_patch))
     [JSONPatchType; MergePatchType; StrategicMergePatchType] /\
  patch_pt (Reference.with_Type "yaml" Reference.deployment_patch) = "".
Proof.
  split.
  - apply (proj1 (patch_pt_valid_iff
                    (Reference.with_Type "json" Reference.deployment_patch))).
    simpl. tauto.
  - apply (proj2 (patch_pt_valid_iff
                    (Reference.with_Type "yaml" Reference.deployment_patch))).
    simpl. intuition discriminate.
Defined.

(** An ingress patch does nothing and reports success, here without a
    client. *)
Lemma patch_unmatched_resource_noop_witness :
  @patch Reference.K (@NewPatchResource Reference.K)
    (Reference.with_Resource "ingresses" Reference.deployment_patch) Reference.world0
  = Some (None, Reference.world0).
Proof.
  apply (@patch_unmatched_resource_noop Reference.K).
  simpl. intuition discriminate.
Defined.

(** Create on a fresh, unconfigured resource panics. *)
Lemma unconfigured_resource_panics_witness :
  @Create Reference.K Reference.F (@NewPatchResource Reference.K)
    (@mkCreateRequest Reference.F Reference.deployment_patch)
    (@mkResponse Reference.F None []) Reference.world0 = None.
Proof.
  apply (@unconfigured_resource_panics Reference.K Reference.F
           (@NewPatchResource Reference.K) Reference.deployment_patch None
           (@mkResponse Reference.F None []) Reference.world0 []
           Reference.deployment_patch eq_refl).
  - simpl. tauto.
  - reflexivity.
  - reflexivity.
Defined.

(** With a plan that does not decode, Create returns the diagnostic and
    sends nothing. *)
Lemma plan_error_returns_early_witness :
  @Create Reference.K Samples.F_broken Reference.r0
    (@mkCreateRequest Samples.F_broken Reference.deployment_patch)
    (@mkResponse Samples.F_broken None []) Reference.world0
  = Some (@mkResponse Samples.F_broken None
            [diag.NewErrorDiagnostic "Value Conversion Error" "cannot decode plan"],
          Reference.world0).
Proof.
  apply (@plan_error_returns_early Reference.K Samples.F_broken Reference.r0
           Reference.deployment_patch None (@mkResponse Samples.F_broken None [])
           Reference.world0 _ Reference.deployment_patch eq_refl eq_refl).
Defined.

(** Read on a stored state writes the same model back. *)
Lemma Read_refreshes_nothing_witness :
  exists resp',
    @Read Reference.K Reference.F Reference.r0
      (@mkReadRequest Reference.F (Some Reference.deployment_patch))
      (@mkResponse Reference.F None []) Reference.world0
    = Some (resp', Reference.world0) /\
    resp_State resp' = Some Reference.deployment_patch.
Proof.
  destruct (@Read_refreshes_nothing Reference.K Reference.F Reference.r0
              (@mkReadRequest Reference.F (Some Reference.deployment_patch))
              (@mkResponse Reference.F None []) Reference.world0)
    as [resp' [Hr [_ Hok]]].
  exists resp'. split; [exact Hr|]. exact (proj1 (Hok eq_refl)).
Defined.

(* ================================================================== *)
(** * Further properties of the provider's Configure *)

Section ConfigureMore.
Context {K : Kubernetes} {F : Framework}.

(** A Configure that ends with an error hands nothing to resources and
    data sources and leaves the cluster alone.  Either the provider
    configuration did not decode, and then no client was built at all;
    or it did, [NewForConfig] was called once and failed, and its error
    is the one diagnostic added. *)
Theorem Configure_failure_hands_no_client req resp (w w' : World) resp' :
  KubernetesPatchProvider_Configure req resp w = Some (resp', w') ->
  diag.HasError (pc_Diagnostics resp') = true ->
  let diags := diag.Append (pc_Diagnostics resp) (fst (Config_Get (pc_Config req))) in
  let cfg := Configure_cfg (snd (Config_Get (pc_Config req))) in
  ResourceData resp' = ResourceData resp /\
  DataSourceData resp' = DataSourceData resp /\
  cluster w' = cluster w /\
  (diag.HasError diags = true -> w' = w /\ pc_Diagnostics resp' = diags) /\
  (diag.HasError diags = false ->
   exists e,
     NewForConfig cfg = inr e /\
     pc_Diagnostics resp' = diags ++ [diag.NewErrorDiagnostic "could not get clientset" e] /\
     events_since w w' = [EvNewForConfig cfg]).
Proof.
  unfold KubernetesPatchProvider_Configure.
  destruct (Config_Get (pc_Config req)) as [ds data]. simpl.
  destruct (diag.HasError (diag.Append (pc_Diagnostics resp) ds)) eqn:Hh.
  - intros H _. inversion H; subst. simpl.
    split; [reflexivity|]. split; [reflexivity|]. split; [reflexivity|].
    split; [intros _; split; reflexivity | discriminate].
  - unfold bind, callNewForConfig.
    destruct (NewForConfig (Configure_cfg data)) as [cs|e] eqn:Hn;
      intros H Herr; inversion H; subst; simpl in *.
    + congruence.
    + split; [reflexivity|]. split; [reflexivity|]. split; [reflexivity|].
      split; [discriminate|].
      intros _. exists e. split; [reflexivity|]. split.
      * apply AddError_fresh. exact Hh.
      * apply events_since_app. reflexivity.
Qed.

(** The [rest.Config] of Configure is a function of the [host] attribute
    alone.  A null host gives the zero configuration; a known host is
    entered in its quoted rendering, an unknown one as [<unknown>]. *)
Theorem Configure_cfg_host_only (d : KubernetesPatchProviderModel) :
  (forall d', Host d' = Host d -> Configure_cfg d' = Configure_cfg d) /\
  (Host d = StringNull -> Configure_cfg d = rest_Config_zero) /\
  (forall s, Host d = StringValue s -> cfg_Host (Configure_cfg d) = quote s) /\
  (Host d = StringUnknown -> cfg_Host (Configure_cfg d) = "<unknown>").
Proof.
  unfold Configure_cfg. repeat split.
  - intros d' H. rewrite H.
    destruct (IsNull (Host d)), (IsNull (ClusterCACertificate d)),
      (IsNull (ClusterCACertificate d')); reflexivity.
  - intros H. rewrite H. simpl.
    destruct (IsNull (ClusterCACertificate d)); reflexivity.
  - intros s H. rewrite H. simpl.
    destruct (IsNull (ClusterCACertificate d)); reflexivity.
  - intros H. rewrite H. simpl.
    destruct (IsNull (ClusterCACertificate d)); reflexivity.
Qed.

End ConfigureMore.

(** A configuration that does not decode: nothing is built. *)
Lemma Configure_failure_hands_no_client_witness :
  exists resp',
    @KubernetesPatchProvider_Configure Reference.K Samples.F_broken
      (@mkProviderConfigureRequest Samples.F_broken Samples.kube_provider)
      (@mkProviderConfigureResponse Reference.K [] (@any_nil Reference.K)
         (@any_nil Reference.K))
      Reference.world0 = Some (resp', Reference.world0) /\
    ResourceData resp' = @any_nil Reference.K.
Proof.
  eexists. split; [lazy; reflexivity|].
  eapply (@Configure_failure_hands_no_client Reference.K Samples.F_broken
            (@mkProviderConfigureRequest Samples.F_broken Samples.kube_provider)
            (@mkProviderConfigureResponse Reference.K [] (@any_nil Reference.K)
               (@any_nil Reference.K))
            Reference.world0 Reference.world0);
    reflexivity.
Defined.

(** The host [kube:6443] reaches the configuration in quotes, and the
    token and CA certificate declared beside it change nothing. *)
Lemma Configure_cfg_host_only_witness :
  @Configure_cfg Reference.F Samples.kube_provider
    = @Configure_cfg Reference.F
        (Reference.with_Host (StringValue "kube:6443") Reference.empty_provider) /\
  cfg_Host (@Configure_cfg Reference.F Samples.kube_provider)
    = (Reference.dquote ++ "kube:6443" ++ Reference.dquote)%string.
Proof.
  pose proof (@Configure_cfg_host_only Reference.F
                (Reference.with_Host (StringValue "kube:6443") Reference.empty_provider))
    as [H1 _].
  pose proof (@Configure_cfg_host_only Reference.F Samples.kube_provider)
    as [_ [_ [H3 _]]].
  split; [apply H1; reflexivity | apply (H3 "kube:6443"); reflexivity].
Defined.

(* ================================================================== *)
(** * The helpers of [initializeConfiguration] *)

Section ExpandMore.
Context {E : Environment}.

(** [expandPaths] succeeds exactly when every path expands, and then
    gives the expansions one for one, in order. *)
Theorem expandPaths_pointwise ps qs :
  expandPaths ps = inl qs <->
  Forall2 (fun p q => homedir_Expand p = inl q) ps qs.
Proof.
  split.
  - revert qs. induction ps as [|p ps IH]; intros qs H; simpl in H.
    + inversion H. constructor.
    + destruct (homedir_Expand p) as [path|err] eqn:Hp; [|discriminate].
      destruct (expandPaths ps) as [rest|err]; [|discriminate].
      inversion H; subst. constructor; [exact Hp | apply IH; reflexivity].
  - intros H. induction H as [|p q ps qs Hp _ IH]; simpl.
    + reflexivity.
    + rewrite Hp, IH. reflexivity.
Qed.

(** [expandPaths] fails exactly when some path does not expand while all
    paths before it do, and the error is the one of that first path. *)
Theorem expandPaths_first_error ps e :
  expandPaths ps = inr e <->
  exists pre p post,
    ps = pre ++ p :: post /\
    (exists qs, expandPaths pre = inl qs) /\
    homedir_Expand p = inr e.
Proof.
  split.
  - induction ps as [|p ps IH]; simpl; intros H; [discriminate|].
    destruct (homedir_Expand p) as [path|err] eqn:Hp.
    + destruct (expandPaths ps) as [rest|err] eqn:Hr; [discriminate|].
      inversion H; subst.
      destruct (IH eq_refl) as [pre [p' [post [Hps [[qs Hq] He]]]]].
      exists (p :: pre), p', post. split; [rewrite Hps; reflexivity|].
      split; [|exact He].
      exists (path :: qs). simpl. rewrite Hp, Hq. reflexivity.
    + inversion H; subst. exists [], p, ps.
      split; [reflexivity|]. split; [exists []; reflexivity | exact Hp].
  - intros [pre [p [post [Hps [[qs Hq] He]]]]]. subst ps.
    revert qs Hq. induction pre as [|a pre IH]; intros qs Hq; simpl.
    + rewrite He. reflexivity.
    + simpl in Hq.
      destruct (homedir_Expand a) as [path|err]; [|discriminate].
      destruct (expandPaths pre) as [rest|err]; [|discriminate].
      rewrite (IH rest eq_refl). reflexivity.
Qed.

End ExpandMore.

(** [expandStringSlice] panics exactly on a slice that holds a value that
    is no string; otherwise the result has the length of the slice, with
    the empty string at every nil element; and a slice of strings comes
    back as it is. *)
Theorem expandStringSlice_spec (s : list GoValue) :
  (expandStringSlice s = None <-> In go_other s) /\
  (forall r, expandStringSlice s = Some r ->
     length r = length s /\
     forall k, nth_error s k = Some go_nil -> nth_error r k = Some "") /\
  (forall l, s = map go_string l -> expandStringSlice s = Some l).
Proof.
  split; [|split].
  - induction s as [|v s IH]; simpl.
    + split; [discriminate | contradiction].
    + destruct v; simpl.
      * destruct (expandStringSlice s); simpl.
        -- split; [discriminate|]. intros [H|H]; [discriminate|].
           apply IH in H. discriminate.
        -- split; [intros _; right; apply IH; reflexivity | reflexivity].
      * destruct (expandStringSlice s); simpl.
        -- split; [discriminate|]. intros [H|H]; [discriminate|].
           apply IH in H. discriminate.
        -- split; [intros _; right; apply IH; reflexivity | reflexivity].
      * split; [intros _; left; reflexivity | reflexivity].
  - induction s as [|v s IH]; intros r H; simpl in H.
    + inversion H. split; [reflexivity|]. intros [|k]; discriminate.
    + destruct v; try discriminate;
        (destruct (expandStringSlice s) as [r'|]; [|discriminate]);
        simpl in H; inversion H; subst;
        destruct (IH r' eq_refl) as [Hl Hn];
        (split; [simpl; f_equal; exact Hl|]);
        intros [|k] Hk; simpl in *; try (apply Hn; exact Hk);
        try reflexivity; discriminate.
  - intros l. revert s. induction l as [|x l IH]; intros s ->; simpl.
    + reflexivity.
    + rewrite (IH _ eq_refl). reflexivity.
Qed.

(** Two paths that expand, and a list whose second path does not. *)
Lemma expandPaths_pointwise_witness :
  @expandPaths Reference.E ["/etc/a"; "/etc/b"] = inl ["/etc/a"; "/etc/b"].
Proof.
  apply (proj2 (@expandPaths_pointwise Reference.E ["/etc/a"; "/etc/b"]
                  ["/etc/a"; "/etc/b"])).
  repeat constructor.
Defined.

Lemma expandPaths_first_error_witness :
  @expandPaths Reference.E ["/etc/a"; "~bad"; "/etc/b"]
    = inr "cannot expand user-specific home dir".
Proof.
  apply (proj2 (@expandPaths_first_error Reference.E ["/etc/a"; "~bad"; "/etc/b"] _)).
  exists ["/etc/a"], "~bad", ["/etc/b"].
  split; [reflexivity|]. split; [eexists; reflexivity | reflexivity].
Defined.

Lemma expandStringSlice_spec_witness :
  expandStringSlice [go_string "eks"; go_nil; go_string "get-token"]
    = Some ["eks"; ""; "get-token"] /\
  expandStringSlice (map go_string ["a"; "b"]) = Some ["a"; "b"] /\
  expandStringSlice [go_string "eks"; go_other] = None.
Proof.
  split; [reflexivity|]. split.
  - apply (proj2 (proj2 (expandStringSlice_spec (map go_string ["a"; "b"])))).
    reflexivity.
  - apply (proj1 (expandStringSlice_spec [go_string "eks"; go_other])).
    simpl. tauto.
Defined.

(* ================================================================== *)
(** * Further properties of [initializeConfiguration] *)

Section OverridesFacts.
Context {F : Framework} {E : Environment}.

Lemma pointer_default_string v :
  match ValueStringPointer v with Some x => x | None => "" end = ValueString v.
Proof. destruct v; reflexivity. Qed.

Lemma pointer_default_bytes v :
  match ValueStringPointer v with
  | Some x => list_byte_of_string x
  | None => []
  end = list_byte_of_string (ValueString v).
Proof. destruct v; reflexivity. Qed.

Lemma pointer_default_bool v :
  match ValueBoolPointer v with Some b => b | None => false end = ValueBool v.
Proof. destruct v; reflexivity. Qed.

Lemma bytes_empty_iff s :
  (length (list_byte_of_string s) =? 0)%nat = (s =? "").
Proof. destruct s; reflexivity. Qed.

(** The context overrides on fresh overrides: each of the three fields is
    the value of its attribute. *)
Lemma context_overrides_zero d :
  context_overrides d ConfigOverrides_zero
  = set_CurrentContext (ValueString (ConfigContext d))
      (set_Context (ValueString (ConfigContextAuthInfo d))
         (ValueString (ConfigContextCluster d)) ConfigOverrides_zero).
Proof.
  unfold context_overrides.
  destruct (ConfigContext d), (ConfigContextAuthInfo d), (ConfigContextCluster d);
    reflexivity.
Qed.

(** The first block of static overrides, field by field. *)
Lemma static_overrides_tls_eq d o :
  static_overrides_tls d o
  = mkOverrides (CurrentContext o) (Context_AuthInfo o) (Context_Cluster o)
      (match ValueBoolPointer (Insecure d) with
       | Some b => b | None => ClusterInfo_InsecureSkipTLSVerify o end)
      (match ValueStringPointer (TLSServerName d) with
       | Some v => v | None => ClusterInfo_TLSServerName o end)
      (match ValueStringPointer (ClusterCACertificate d) with
       | Some v => list_byte_of_string v
       | None => ClusterInfo_CertificateAuthorityData o end)
      (ClusterInfo_Server o)
      (match ValueStringPointer (ClientCertificate d) with
       | Some v => list_byte_of_string v
       | None => AuthInfo_ClientCertificateData o end)
      (AuthInfo_ClientKeyData o) (AuthInfo_Username o) (AuthInfo_Password o)
      (AuthInfo_Token o) (AuthInfo_Exec o) (ClusterDefaults_ProxyURL o).
Proof.
  unfold static_overrides_tls, when_set.
  destruct (ValueBoolPointer (Insecure d)), (ValueStringPointer (TLSServerName d)),
    (ValueStringPointer (ClusterCACertificate d)),
    (ValueStringPointer (ClientCertificate d)); destruct o; reflexivity.
Qed.

(** The last block of static overrides, field by field. *)
Lemma static_overrides_auth_eq d o :
  static_overrides_auth d o
  = mkOverrides (CurrentContext o) (Context_AuthInfo o) (Context_Cluster o)
      (ClusterInfo_InsecureSkipTLSVerify o) (ClusterInfo_TLSServerName o)
      (ClusterInfo_CertificateAuthorityData o) (ClusterInfo_Server o)
      (AuthInfo_ClientCertificateData o)
      (match ValueStringPointer (ClientKey d) with
       | Some v => list_byte_of_string v | None => AuthInfo_ClientKeyData o end)
      (match ValueStringPointer (Username d) with
       | Some v => v | None => AuthInfo_Username o end)
      (match ValueStringPointer (Password d) with
       | Some v => v | None => AuthInfo_Password o end)
      (match ValueStringPointer (Token d) with
       | Some v => v | None => AuthInfo_Token o end)
      (match Exec d with
       | spec :: _ => Some (exec_of spec) | [] => AuthInfo_Exec o end)
      (match ValueStringPointer (ProxyURL d) with
       | Some v => v | None => ClusterDefaults_ProxyURL o end).
Proof.
  unfold static_overrides_auth, when_set.
  destruct (ValueStringPointer (Username d)), (ValueStringPointer (Password d)),
    (ValueStringPointer (ClientKey d)), (ValueStringPointer (Token d)),
    (Exec d), (ValueStringPointer (ProxyURL d)); destruct o; reflexivity.
Qed.

(** The three stages a successful run went through. *)
Lemma initialize_stages d loader overrides :
  initialize_loader_overrides d = inl (loader, overrides) ->
  exists o_ctx o_host,
    load_paths d ClientConfigLoadingRules_zero ConfigOverrides_zero
      = inl (loader, o_ctx) /\
    static_overrides_host d (static_overrides_tls d o_ctx) = inl o_host /\
    overrides = static_overrides_auth d o_host.
Proof.
  unfold initialize_loader_overrides.
  destruct (load_paths d ClientConfigLoadingRules_zero ConfigOverrides_zero)
    as [[l o]|ds]; [|discriminate].
  destruct (static_overrides_host d (static_overrides_tls d o)) as [o'|ds] eqn:Hh;
    [|discriminate].
  intros H. inversion H; subst. exists o, o'. auto.
Qed.

(** What the paths block leaves in the overrides. *)
Lemma load_paths_overrides d loader o :
  load_paths d ClientConfigLoadingRules_zero ConfigOverrides_zero = inl (loader, o) ->
  (configPaths d = [] /\ loader = ClientConfigLoadingRules_zero /\
   o = ConfigOverrides_zero) \/
  (configPaths d <> [] /\ o = context_overrides d ConfigOverrides_zero).
Proof.
  unfold load_paths.
  destruct (configPaths d) as [|p ps] eqn:Hc; simpl.
  - intros H. inversion H. left. auto.
  - destruct (match homedir_Expand p with
              | inl path => match expandPaths ps with
                            | inl rest => inl (path :: rest)
                            | inr err => inr err
                            end
              | inr err => inr err
              end) as [qs|e]; [|discriminate].
    intros H. inversion H. right. split; [discriminate | reflexivity].
Qed.

(** The host override changes the server only. *)
Lemma static_overrides_host_inv d o o' :
  static_overrides_host d o = inl o' ->
  (ValueStringPointer (Host d) = None /\ o' = o) \/
  (exists v host,
      ValueStringPointer (Host d) = Some v /\
      DefaultServerURL v
        ((negb (length (ClusterInfo_CertificateAuthorityData o) =? 0)%nat
          || negb (length (AuthInfo_ClientCertificateData o) =? 0)%nat)
         && negb (ClusterInfo_InsecureSkipTLSVerify o)) = inl host /\
      o' = set_Server host o).
Proof.
  unfold static_overrides_host.
  destruct (ValueStringPointer (Host d)) as [v|].
  - destruct (DefaultServerURL v _) as [host|err] eqn:Hd; [|discriminate].
    intros H. inversion H. right. exists v, host. auto.
  - intros H. inversion H. left. auto.
Qed.

End OverridesFacts.

Section InitializeMore.
Context {F : Framework} {E : Environment}.

(** After the paths block the TLS and credential fields are still at
    their zero values. *)
Lemma load_paths_leaves_tls_zero d loader o :
  load_paths d ClientConfigLoadingRules_zero ConfigOverrides_zero = inl (loader, o) ->
  ClusterInfo_InsecureSkipTLSVerify o = false /\
  ClusterInfo_CertificateAuthorityData o = [] /\
  AuthInfo_ClientCertificateData o = [] /\
  ClusterInfo_TLSServerName o = "" /\ ClusterInfo_Server o = "" /\
  AuthInfo_ClientKeyData o = [] /\ AuthInfo_Username o = "" /\
  AuthInfo_Password o = "" /\ AuthInfo_Token o = "" /\
  AuthInfo_Exec o = None /\ ClusterDefaults_ProxyURL o = "".
Proof.
  intros H. apply load_paths_overrides in H.
  destruct H as [[_ [_ Ho]] | [_ Ho]]; subst o.
  - repeat split.
  - rewrite context_overrides_zero. repeat split.
Qed.

(** The flag the host override computes is the declared one. *)
Lemma defaultTLS_declared d o :
  ClusterInfo_InsecureSkipTLSVerify o = false ->
  ClusterInfo_CertificateAuthorityData o = [] ->
  AuthInfo_ClientCertificateData o = [] ->
  (negb (length (ClusterInfo_CertificateAuthorityData (static_overrides_tls d o)) =? 0)%nat
   || negb (length (AuthInfo_ClientCertificateData (static_overrides_tls d o)) =? 0)%nat)
  && negb (ClusterInfo_InsecureSkipTLSVerify (static_overrides_tls d o))
  = declared_defaultTLS d.
Proof.
  intros Hi Hca Hcert. rewrite static_overrides_tls_eq. simpl.
  rewrite Hi, Hca, Hcert.
  rewrite pointer_default_bytes, pointer_default_bytes, pointer_default_bool.
  rewrite !bytes_empty_iff. reflexivity.
Qed.

(** Whenever [initializeConfiguration] gets to build the client config,
    each static override is the value of its attribute: the declared
    string or flag when the attribute is known, and the zero value (empty
    string, no bytes, false) when it is null or unknown. *)
Theorem overrides_are_declared_values d loader o :
  initialize_loader_overrides d = inl (loader, o) ->
  AuthInfo_Username o = ValueString (Username d) /\
  AuthInfo_Password o = ValueString (Password d) /\
  AuthInfo_Token o = ValueString (Token d) /\
  AuthInfo_ClientKeyData o = list_byte_of_string (ValueString (ClientKey d)) /\
  AuthInfo_ClientCertificateData o
    = list_byte_of_string (ValueString (ClientCertificate d)) /\
  ClusterInfo_CertificateAuthorityData o
    = list_byte_of_string (ValueString (ClusterCACertificate d)) /\
  ClusterInfo_TLSServerName o = ValueString (TLSServerName d) /\
  ClusterInfo_InsecureSkipTLSVerify o = ValueBool (Insecure d) /\
  ClusterDefaults_ProxyURL o = ValueString (ProxyURL d).
Proof.
  intros H. destruct (initialize_stages d H) as [o_ctx [o_host [Hl [Hh Ho]]]].
  destruct (load_paths_leaves_tls_zero d Hl)
    as [Z1 [Z2 [Z3 [Z4 [Z5 [Z6 [Z7 [Z8 [Z9 [Z10 Z11]]]]]]]]]].
  assert (Hfields :
            forall o1, o1 = static_overrides_tls d o_ctx \/
                       (exists host, o1 = set_Server host (static_overrides_tls d o_ctx)) ->
            static_overrides_auth d o1
            = mkOverrides (CurrentContext o_ctx) (Context_AuthInfo o_ctx)
                (Context_Cluster o_ctx) (ValueBool (Insecure d))
                (ValueString (TLSServerName d))
                (list_byte_of_string (ValueString (ClusterCACertificate d)))
                (ClusterInfo_Server o1)
                (list_byte_of_string (ValueString (ClientCertificate d)))
                (list_byte_of_string (ValueString (ClientKey d)))
                (ValueString (Username d)) (ValueString (Password d))
                (ValueString (Token d))
                (match Exec d with spec :: _ => Some (exec_of spec) | [] => None end)
                (ValueString (ProxyURL d))).
  { intros o1 Ho1. rewrite static_overrides_auth_eq.
    destruct Ho1 as [->|[host ->]]; rewrite static_overrides_tls_eq; simpl;
      rewrite Z1, Z2, Z3, Z4, Z6, Z7, Z8, Z9, Z10, Z11;
      rewrite !pointer_default_bytes, !pointer_default_string, pointer_default_bool;
      reflexivity. }
  apply static_overrides_host_inv in Hh.
  destruct Hh as [[_ Hh] | [v [host [_ [_ Hh]]]]]; subst o_host;
    rewrite Hfields in Ho by (first [left; reflexivity | right; eexists; reflexivity]);
    subst o; simpl; repeat split.
Qed.

(** The server override: none without a host; with a host, the URL that
    [DefaultServerURL] derives from it, asked for TLS exactly when a
    non-empty CA certificate or client certificate is declared and
    [insecure] is not true. *)
Theorem server_override_uses_declared_tls d loader o :
  initialize_loader_overrides d = inl (loader, o) ->
  (ValueStringPointer (Host d) = None -> ClusterInfo_Server o = "") /\
  (forall v, ValueStringPointer (Host d) = Some v ->
             DefaultServerURL v (declared_defaultTLS d) = inl (ClusterInfo_Server o)).
Proof.
  intros H. destruct (initialize_stages d H) as [o_ctx [o_host [Hl [Hh Ho]]]].
  destruct (load_paths_leaves_tls_zero d Hl) as [Z1 [Z2 [Z3 [_ [Z5 _]]]]].
  apply static_overrides_host_inv in Hh.
  assert (Hs : ClusterInfo_Server o = ClusterInfo_Server o_host).
  { subst o. rewrite static_overrides_auth_eq. reflexivity. }
  rewrite Hs.
  destruct Hh as [[Hn Hh] | [v [host [Hv [Hd Hh]]]]]; subst o_host.
  - split.
    + intros _. rewrite static_overrides_tls_eq. simpl. exact Z5.
    + intros v Hv. congruence.
  - rewrite (@defaultTLS_declared d o_ctx Z1 Z2 Z3) in Hd.
    split.
    + intros Hn. congruence.
    + intros v' Hv'. assert (v' = v) by congruence. subst v'.
      rewrite Hd. reflexivity.
Qed.

(** The context attributes count only together with a kubeconfig path:
    without any path the loading rules and the three context overrides
    stay empty whatever [config_context], [config_context_auth_info] and
    [config_context_cluster] declare; with a path each override is the
    value of its attribute. *)
Theorem context_overrides_need_paths d loader o :
  initialize_loader_overrides d = inl (loader, o) ->
  (configPaths d = [] ->
   loader = ClientConfigLoadingRules_zero /\
   CurrentContext o = "" /\ Context_AuthInfo o = "" /\ Context_Cluster o = "") /\
  (configPaths d <> [] ->
   CurrentContext o = ValueString (ConfigContext d) /\
   Context_AuthInfo o = ValueString (ConfigContextAuthInfo d) /\
   Context_Cluster o = ValueString (ConfigContextCluster d)).
Proof.
  intros H. destruct (initialize_stages d H) as [o_ctx [o_host [Hl [Hh Ho]]]].
  assert (Hkeep : CurrentContext o = CurrentContext o_ctx /\
                  Context_AuthInfo o = Context_AuthInfo o_ctx /\
                  Context_Cluster o = Context_Cluster o_ctx).
  { subst o. rewrite static_overrides_auth_eq. simpl.
    apply static_overrides_host_inv in Hh.
    destruct Hh as [[_ Hh] | [v [host [_ [_ Hh]]]]]; subst o_host;
      rewrite static_overrides_tls_eq; simpl; auto. }
  destruct Hkeep as [K1 [K2 K3]]. rewrite K1, K2, K3.
  pose proof (load_paths_overrides d Hl) as Hp.
  destruct Hp as [[Hc [Hlz Hoz]] | [Hc Hoc]].
  - split; [|intros Hne; contradiction].
    intros _. subst. repeat split.
  - split; [intros He; contradiction|].
    intros _. subst o_ctx. rewrite context_overrides_zero. repeat split.
Qed.

(** The exec plugin comes from the first [exec] block alone, further
    blocks are ignored, and no block gives no plugin.  Its command, API
    version, arguments and environment values are the [String] renderings
    of the block's attributes, the environment names are kept and the
    interactive mode is [IfAvailable]. *)
Theorem exec_plugin_from_first_block d loader o :
  initialize_loader_overrides d = inl (loader, o) ->
  match Exec d with
  | [] => AuthInfo_Exec o = None
  | spec :: _ =>
      exists e,
        AuthInfo_Exec o = Some e /\
        exec_APIVersion e = String_ (APIVersion spec) /\
        exec_Command e = String_ (Command spec) /\
        exec_Args e = map String_ (Args spec) /\
        map fst (exec_Env e) = map fst (Env spec) /\
        map snd (exec_Env e) = map String_ (map snd (Env spec)) /\
        exec_InteractiveMode e = "IfAvailable"
  end.
Proof.
  intros H. destruct (initialize_stages d H) as [o_ctx [o_host [Hl [Hh Ho]]]].
  destruct (load_paths_leaves_tls_zero d Hl)
    as [_ [_ [_ [_ [_ [_ [_ [_ [_ [Z10 _]]]]]]]]]].
  assert (He : AuthInfo_Exec o_host = None).
  { apply static_overrides_host_inv in Hh.
    destruct Hh as [[_ Hh] | [v [host [_ [_ Hh]]]]]; subst o_host;
      rewrite static_overrides_tls_eq; simpl; exact Z10. }
  subst o. rewrite static_overrides_auth_eq. simpl.
  destruct (Exec d) as [|spec rest]; [exact He|].
  exists (exec_of spec). unfold exec_of, expandStringSliceV2. simpl.
  repeat split.
  - rewrite map_map. reflexivity.
  - rewrite !map_map. reflexivity.
Qed.

End InitializeMore.

Section InitializeResult.
Context {F : Framework} {E : Environment} {C : ClientCmd}.

(** A kubeconfig path that does not expand ends
    [initializeConfiguration] before any override is looked at: no
    config, and one error diagnostic whose summary is the error of the
    first such path. *)
Theorem expand_failure_result d e :
  expandPaths (configPaths d) = inr e ->
  initializeConfiguration d
  = (None, [sdkdiag.mkDiagnostic diag.SeverityError e "" []]).
Proof.
  intros H. unfold initializeConfiguration, initialize_loader_overrides, load_paths.
  destruct (configPaths d) as [|p ps] eqn:Hc; [discriminate|].
  simpl length. simpl Nat.ltb. cbv iota. rewrite H. reflexivity.
Qed.

(** A host that [DefaultServerURL] rejects, with paths that expand, ends
    [initializeConfiguration] with no config and one error diagnostic on
    the attribute [host], which names the declared value and carries the
    parse error. *)
Theorem host_failure_result d ps v e :
  expandPaths (configPaths d) = inl ps ->
  ValueStringPointer (Host d) = Some v ->
  DefaultServerURL v (declared_defaultTLS d) = inr e ->
  initializeConfiguration d
  = (None, [sdkdiag.mkDiagnostic diag.SeverityError
              ("Failed to parse value for host: " ++ v) e ["host"]]).
Proof.
  intros Hexp Hv Hd.
  unfold initializeConfiguration, initialize_loader_overrides.
  destruct (load_paths d ClientConfigLoadingRules_zero ConfigOverrides_zero)
    as [[l o]|ds] eqn:Hl.
  - destruct (load_paths_leaves_tls_zero d Hl) as [Z1 [Z2 [Z3 _]]].
    unfold static_overrides_host. rewrite Hv.
    rewrite (@defaultTLS_declared d o Z1 Z2 Z3), Hd. reflexivity.
  - exfalso. unfold load_paths in Hl. rewrite Hexp in Hl.
    destruct (0 <? length (configPaths d))%nat; discriminate.
Qed.

(** The result of [initializeConfiguration] always has one of two
    shapes: a config and no diagnostic, or no config and exactly one
    diagnostic.  That diagnostic is only a warning exactly when the
    failure is the kubeconfig loader's, and an error when a path or the
    host was rejected before. *)
Theorem initializeConfiguration_result_shape d :
  match initializeConfiguration d with
  | (Some _, ds) => ds = []
  | (None, ds) =>
      exists x,
        ds = [x] /\
        (sdkdiag.severity x = diag.SeverityWarning <->
         exists l o, initialize_loader_overrides d = inl (l, o)) /\
        (sdkdiag.severity x = diag.SeverityError <->
         exists ds', initialize_loader_overrides d = inr ds')
  end.
Proof.
  unfold initializeConfiguration.
  destruct (initialize_loader_overrides d) as [[l o]|ds] eqn:Hi.
  - destruct (ClientConfig l o) as [cfg|err]; [reflexivity|].
    simpl. eexists. split; [reflexivity|]. simpl. split.
    + split; [intros _; exists l, o; reflexivity | reflexivity].
    + split; [discriminate | intros [ds' Hd]; discriminate].
  - assert (Hone : exists x, ds = [x] /\ sdkdiag.severity x = diag.SeverityError).
    { unfold initialize_loader_overrides in Hi.
      destruct (load_paths d ClientConfigLoadingRules_zero ConfigOverrides_zero)
        as [[l o]|ds0] eqn:Hl.
      - destruct (static_overrides_host d (static_overrides_tls d o))
          as [o'|ds1] eqn:Hh; [discriminate|].
        inversion Hi; subst ds1. clear Hi.
        unfold static_overrides_host in Hh.
        destruct (ValueStringPointer (Host d)) as [v|]; [|discriminate].
        destruct (DefaultServerURL v _) as [host|err]; [discriminate|].
        inversion Hh. eexists. split; reflexivity.
      - inversion Hi; subst ds0. clear Hi.
        unfold load_paths in Hl.
        destruct (0 <? length (configPaths d))%nat; [|discriminate].
        destruct (expandPaths (configPaths d)) as [qs|err]; [discriminate|].
        inversion Hl. eexists. split; reflexivity. }
    destruct Hone as [x [Hx Hsev]]. exists x. split; [exact Hx|]. split.
    + split; [rewrite Hsev; discriminate | intros [l [o Hlo]]; discriminate].
    + split; [intros _; exists ds; reflexivity | intros _; exact Hsev].
Qed.

End InitializeResult.

(** A configuration with host, CA certificate and token. *)
Lemma overrides_are_declared_values_witness :
  exists loader o,
    @initialize_loader_overrides Reference.F Samples.E_noenv Samples.kube_provider
      = inl (loader, o) /\
    AuthInfo_Token o = "secret" /\
    ClusterInfo_CertificateAuthorityData o
      = list_byte_of_string "-----BEGIN CERTIFICATE-----" /\
    AuthInfo_Username o = "" /\ ClusterInfo_InsecureSkipTLSVerify o = false.
Proof.
  eexists _, _. split; [lazy; reflexivity|].
  destruct (@overrides_are_declared_values Reference.F Samples.E_noenv
              Samples.kube_provider _ _ eq_refl)
    as [H1 [_ [H3 [_ [_ [H6 [_ [H8 _]]]]]]]].
  repeat split; assumption.
Defined.

(** With a CA certificate the server URL is derived with TLS; declaring
    [insecure] beside it turns that off. *)
Lemma server_override_uses_declared_tls_witness :
  (exists loader o,
      @initialize_loader_overrides Reference.F Samples.E_noenv Samples.kube_provider
        = inl (loader, o) /\
      ClusterInfo_Server o = "https://kube:6443") /\
  (exists loader o,
      @initialize_loader_overrides Reference.F Samples.E_noenv
        (Samples.with_Insecure (BoolValue true) Samples.kube_provider)
        = inl (loader, o) /\
      ClusterInfo_Server o = "http://kube:6443").
Proof.
  split.
  - eexists _, _. split; [lazy; reflexivity|].
    pose proof (proj2 (@server_override_uses_declared_tls Reference.F Samples.E_noenv
                         Samples.kube_provider _ _ eq_refl) "kube:6443" eq_refl) as H.
    inversion H. reflexivity.
  - eexists _, _. split; [lazy; reflexivity|].
    pose proof (proj2 (@server_override_uses_declared_tls Reference.F Samples.E_noenv
                         (Samples.with_Insecure (BoolValue true) Samples.kube_provider)
                         _ _ eq_refl) "kube:6443" eq_refl) as H.
    inversion H. reflexivity.
Defined.

(** The context [kind-kind] is dropped without a kubeconfig path and
    kept with one. *)
Lemma context_overrides_need_paths_witness :
  (exists loader o,
      @initialize_loader_overrides Reference.F Samples.E_noenv
        (Samples.with_ConfigContext (StringValue "kind-kind") Samples.kube_provider)
        = inl (loader, o) /\
      CurrentContext o = "") /\
  (exists loader o,
      @initialize_loader_overrides Reference.F Samples.E_noenv
        Samples.kubeconfig_provider = inl (loader, o) /\
      CurrentContext o = "kind-kind").
Proof.
  split.
  - eexists _, _. split; [lazy; reflexivity|].
    apply (proj1 (@context_overrides_need_paths Reference.F Samples.E_noenv
                    (Samples.with_ConfigContext (StringValue "kind-kind")
                       Samples.kube_provider) _ _ eq_refl)).
    reflexivity.
  - eexists _, _. split; [lazy; reflexivity|].
    apply (proj2 (@context_overrides_need_paths Reference.F Samples.E_noenv
                    Samples.kubeconfig_provider _ _ eq_refl)).
    discriminate.
Defined.

(** Two exec blocks: the plugin is the first one's, its command in
    quotes. *)
Lemma exec_plugin_from_first_block_witness :
  exists loader o e,
    @initialize_loader_overrides Reference.F Samples.E_noenv
      (Samples.with_Exec [Samples.aws_exec; Samples.gcloud_exec] Samples.kube_provider)
      = inl (loader, o) /\
    AuthInfo_Exec o = Some e /\
    exec_Command e = (Reference.dquote ++ "aws" ++ Reference.dquote)%string /\
    length (exec_Args e) = 2.
Proof.
  pose proof (@exec_plugin_from_first_block Reference.F Samples.E_noenv
                (Samples.with_Exec [Samples.aws_exec; Samples.gcloud_exec]
                   Samples.kube_provider) _ _ eq_refl) as H.
  simpl in H. destruct H as [e [He [_ [Hc [Ha _]]]]].
  eexists _, _, e. split; [lazy; reflexivity|].
  split; [exact He|]. split; [exact Hc|]. rewrite Ha. reflexivity.
Defined.

(** A kubeconfig path that does not expand. *)
Lemma expand_failure_result_witness :
  @initializeConfiguration Reference.F Samples.E_noenv Samples.C
    (Reference.with_ConfigPath (StringValue "~bad") Samples.kube_provider)
  = (None, [sdkdiag.mkDiagnostic diag.SeverityError
              "cannot expand user-specific home dir" "" []]).
Proof.
  apply (@expand_failure_result Reference.F Samples.E_noenv Samples.C).
  reflexivity.
Defined.

(** An unknown host is the empty string, which does not parse. *)
Lemma host_failure_result_witness :
  @initializeConfiguration Reference.F Samples.E_noenv Samples.C
    (Reference.with_Host StringUnknown Samples.kube_provider)
  = (None, [sdkdiag.mkDiagnostic diag.SeverityError
              "Failed to parse value for host: "
              "host must be a URL or a host:port pair" ["host"]]).
Proof.
  apply (@host_failure_result Reference.F Samples.E_noenv Samples.C
           (Reference.with_Host StringUnknown Samples.kube_provider) [] "");
    reflexivity.
Defined.

(** An empty provider configuration gets as far as the loader, which
    rejects it: one warning, no error. *)
Lemma initializeConfiguration_result_shape_witness :
  exists x,
    @initializeConfiguration Reference.F Samples.E_noenv Samples.C
      Reference.empty_provider = (None, [x]) /\
    sdkdiag.severity x = diag.SeverityWarning.
Proof.
  pose proof (@initializeConfiguration_result_shape Reference.F Samples.E_noenv
                Samples.C Reference.empty_provider) as H.
  lazy in H. destruct H as [x [Hx [Hw _]]].
  exists x. split.
  - lazy. rewrite Hx. reflexivity.
  - apply Hw. eexists _, _. reflexivity.
Defined.

Section AppendFacts.
Import diag.

(** [Append] brings in an error only if the collection had one or one
    of the new diagnostics is one. *)
Lemma HasError_Append diags new :
  HasError (Append diags new) = HasError diags || HasError new.
Proof.
  unfold Append. revert diags.
  induction new as [|d new IH]; intros diags; simpl.
  - rewrite orb_false_r. reflexivity.
  - rewrite IH.
    destruct (Contains diags d) eqn:Hc.
    + destruct (severity d) eqn:Hs; simpl; [|reflexivity].
      rewrite (Contains_error_HasError _ _ Hs Hc). reflexivity.
    + rewrite HasError_app. simpl. rewrite orb_false_r, orb_assoc. reflexivity.
Qed.

End AppendFacts.

Section UnmatchedMore.
Context {K : Kubernetes} {F : Framework}.

(** Create and Update of a resource string without a case (["bindings"]
    or any string the validator would reject) record the resource as
    applied: nothing is sent and the cluster is as before, yet the model
    goes through [State.Set] and the diagnostics are those of reading
    the plan followed by those of [State.Set], nothing else; so unless
    [State.Set] itself reports an error, the response has none. *)
Theorem unmatched_resource_recorded_as_applied
        (r : PatchResource) plan st0 resp (w : World) ds data :
  ~ In (ValueString (Resource data)) patch_cases ->
  Plan_Get plan = (ds, data) ->
  diag.HasError (diag.Append (resp_Diagnostics resp) ds) = false ->
  (exists resp',
      let written := set_Id (StringValue "example-id") data in
      Create r (mkCreateRequest plan) resp w = Some (resp', w) /\
      resp_State resp' = snd (State_Set written (resp_State resp)) /\
      resp_Diagnostics resp'
        = diag.Append (diag.Append (resp_Diagnostics resp) ds)
            (fst (State_Set written (resp_State resp))) /\
      diag.HasError (resp_Diagnostics resp')
        = diag.HasError (fst (State_Set written (resp_State resp)))) /\
  (exists resp',
      Update r (mkUpdateRequest plan st0) resp w = Some (resp', w) /\
      resp_State resp' = snd (State_Set data (resp_State resp)) /\
      resp_Diagnostics resp'
        = diag.Append (diag.Append (resp_Diagnostics resp) ds)
            (fst (State_Set data (resp_State resp))) /\
      diag.HasError (resp_Diagnostics resp')
        = diag.HasError (fst (State_Set data (resp_State resp)))).
Proof.
  intros Hno Hget Hok.
  pose proof (patch_falls_through r data w Hno) as Hp.
  split.
  - destruct (Create_after_patch r plan resp w Hget Hok Hp) as [resp' [Hc [Hs Hd]]].
    exists resp'. split; [exact Hc|]. split; [exact Hs|]. split; [exact Hd|].
    rewrite Hd, HasError_Append, Hok. reflexivity.
  - destruct (Update_after_patch r plan st0 resp w Hget Hok Hp) as [resp' [Hc [Hs Hd]]].
    exists resp'. split; [exact Hc|]. split; [exact Hs|]. split; [exact Hd|].
    rewrite Hd, HasError_Append, Hok. reflexivity.
Qed.

End UnmatchedMore.

(** A [bindings] patch is stored in state, without any diagnostic, and
    the cluster's list of applied patches stays empty. *)
Lemma unmatched_resource_recorded_as_applied_witness :
  exists resp',
    @Create Reference.K Reference.F Reference.r0
      (@mkCreateRequest Reference.F
         (Reference.with_Resource "bindings" Reference.deployment_patch))
      (@mkResponse Reference.F None []) Reference.world0
    = Some (resp', Reference.world0) /\
    resp_State resp'
    = Some (set_Id (StringValue "example-id")
              (Reference.with_Resource "bindings" Reference.deployment_patch)) /\
    resp_Diagnostics resp' = [] /\
    diag.HasError (resp_Diagnostics resp') = false.
Proof.
  refine (proj1 (@unmatched_resource_recorded_as_applied Reference.K Reference.F
                   Reference.r0
                   (Reference.with_Resource "bindings" Reference.deployment_patch)
                   None (@mkResponse Reference.F None []) Reference.world0 []
                   (Reference.with_Resource "bindings" Reference.deployment_patch)
                   _ eq_refl eq_refl)).
  simpl. intuition discriminate.
Defined.
